(** * Inovio tokenization reference server: signing and verification

    A shallow embedding of [server.js]: the request signer
    ([generateTimestamp], [generateUniqueId], [generateSignature]), the
    response verifier ([verifyResponseSignature]), the route
    [POST /api/generate-token] and the start-up banner of [app.listen].

    Conventions.
    - A JavaScript string is the list of its UTF-16 code units ([jsstring]).
    - Bytes on the wire (the response [Buffer], header values) are Rocq
      [string]s: one [ascii] per byte.
    - Bytes handed to the hash are numbers in [0, 255] ([list Z]).
    - 32-bit words are [Z] with the wrap-around written out.
    - Console output and the outbound call are recorded in a trace;
      exceptions are values ([M]).
    - The clock, the random bytes and the token service are inputs
      ([world]).  HMAC-SHA256, UTF-8, [trim], [toUpperCase], [padStart],
      [substring] and the UTC fields of [Date] are written out; [JSON.parse],
      the validity of a URL and the wording of the engine's TypeErrors are
      parameters of the route. *)

From Stdlib Require Import String Ascii DecimalString ZArith Bool Lia List.
Import ListNotations.
Local Open Scope Z_scope.

(** ** Strings and bytes *)

Definition jsstring := list Z.
Definition bytes := list Z.

(** [js s] reads a byte string as the JavaScript string with one code unit
    per byte.  This is what [Buffer.toString('latin1')] does, and it is
    also how source literals are written below. *)
Definition js (s : string) : jsstring :=
  map (fun c => Z.of_N (N_of_ascii c)) (list_ascii_of_string s).

Definition latin1_decode (b : string) : jsstring := js b.

(** The double quote, which cannot be written inside a literal. *)
Definition dq : jsstring := [34].

Fixpoint jsstring_eqb (a b : jsstring) : bool :=
  match a, b with
  | [], [] => true
  | x :: a', y :: b' => (x =? y) && jsstring_eqb a' b'
  | _, _ => false
  end.

(** ** SHA-256 (FIPS 180-4), as computed by [crypto.createHmac('sha256', _)] *)

Module SHA256.

Definition w32 (x : Z) : Z := x mod 4294967296.
Definition add32 (x y : Z) : Z := w32 (x + y).
Definition rotr (n x : Z) : Z :=
  Z.lor (Z.shiftr x n) (w32 (Z.shiftl x (32 - n))).
Definition not32 (x : Z) : Z := Z.lxor x 4294967295.

Definition Ch (x y z : Z) : Z := Z.lxor (Z.land x y) (Z.land (not32 x) z).
Definition Maj (x y z : Z) : Z :=
  Z.lxor (Z.lxor (Z.land x y) (Z.land x z)) (Z.land y z).
Definition Sigma0 (x : Z) : Z :=
  Z.lxor (Z.lxor (rotr 2 x) (rotr 13 x)) (rotr 22 x).
Definition Sigma1 (x : Z) : Z :=
  Z.lxor (Z.lxor (rotr 6 x) (rotr 11 x)) (rotr 25 x).
Definition sigma0 (x : Z) : Z :=
  Z.lxor (Z.lxor (rotr 7 x) (rotr 18 x)) (Z.shiftr x 3).
Definition sigma1 (x : Z) : Z :=
  Z.lxor (Z.lxor (rotr 17 x) (rotr 19 x)) (Z.shiftr x 10).

(** The round constants are the first thirty-two bits of the fractional
    parts of the cube roots of the first sixty-four primes; the initial
    hash value comes the same way from the square roots of the first
    eight. *)
Definition primes : list Z :=
  [ 2; 3; 5; 7; 11; 13; 17; 19; 23; 29; 31; 37; 41; 43; 47; 53;
    59; 61; 67; 71; 73; 79; 83; 89; 97; 101; 103; 107; 109; 113; 127; 131;
    137; 139; 149; 151; 157; 163; 167; 173; 179; 181; 191; 193; 197; 199; 211; 223;
    227; 229; 233; 239; 241; 251; 257; 263; 269; 271; 277; 281; 283; 293; 307; 311 ].

(** Integer cube root, one bit at a time from the top. *)
Fixpoint root3_bits (n : nat) (x r : Z) : Z :=
  match n with
  | O => r
  | S n' =>
      let c := r + 2 ^ Z.of_nat n' in
      root3_bits n' x (if c * c * c <=? x then c else r)
  end.

Definition root3 (x : Z) : Z := root3_bits 40 x 0.

Definition K : list Z := map (fun p => w32 (root3 (p * 2 ^ 96))) primes.

Record state := mkState { ha : Z; hb : Z; hc : Z; hd : Z;
                          he : Z; hf : Z; hg : Z; hh : Z }.

Definition H0 : state :=
  let h := fun i => w32 (Z.sqrt (nth i primes 0 * 2 ^ 64)) in
  mkState (h 0%nat) (h 1%nat) (h 2%nat) (h 3%nat)
          (h 4%nat) (h 5%nat) (h 6%nat) (h 7%nat).

(** Padding: a [0x80] byte, zeros up to 56 modulo 64, then the bit length
    as a 64-bit big-endian number. *)
Fixpoint be_bytes (n : nat) (x : Z) : bytes :=
  match n with
  | O => []
  | S n' => ((x / 256 ^ Z.of_nat n') mod 256) :: be_bytes n' x
  end.

Definition pad (m : bytes) : bytes :=
  let len := Z.of_nat (length m) in
  let zeros := Z.to_nat ((55 - len) mod 64) in
  m ++ [128] ++ repeat 0 zeros ++ be_bytes 8 (8 * len).

Fixpoint words_of (n : nat) (b : bytes) : list Z :=
  match n, b with
  | S n', b0 :: b1 :: b2 :: b3 :: rest =>
      (((b0 * 256 + b1) * 256 + b2) * 256 + b3) :: words_of n' rest
  | _, _ => []
  end.

(** The message schedule keeps the last sixteen words, oldest first. *)
Definition next_word (win : list Z) : Z :=
  add32 (add32 (sigma1 (nth 14 win 0)) (nth 9 win 0))
        (add32 (sigma0 (nth 1 win 0)) (nth 0 win 0)).

Fixpoint schedule (n : nat) (win : list Z) : list Z :=
  match n with
  | O => []
  | S n' => let w := next_word win in w :: schedule n' (tl win ++ [w])
  end.

Definition round (s : state) (kw : Z * Z) : state :=
  let (k, w) := kw in
  let t1 := add32 (add32 (add32 (hh s) (Sigma1 (he s)))
                         (add32 (Ch (he s) (hf s) (hg s)) k)) w in
  let t2 := add32 (Sigma0 (ha s)) (Maj (ha s) (hb s) (hc s)) in
  mkState (add32 t1 t2) (ha s) (hb s) (hc s)
          (add32 (hd s) t1) (he s) (hf s) (hg s).

Definition compress (k : list Z) (s : state) (block : bytes) : state :=
  let w16 := words_of 16 block in
  let w := w16 ++ schedule 48 w16 in
  let s' := fold_left round (combine k w) s in
  mkState (add32 (ha s) (ha s')) (add32 (hb s) (hb s'))
          (add32 (hc s) (hc s')) (add32 (hd s) (hd s'))
          (add32 (he s) (he s')) (add32 (hf s) (hf s'))
          (add32 (hg s) (hg s')) (add32 (hh s) (hh s')).

Fixpoint blocks (k : list Z) (n : nat) (s : state) (b : bytes) : state :=
  match n with
  | O => s
  | S n' => blocks k n' (compress k s (firstn 64 b)) (skipn 64 b)
  end.

Definition digest_bytes (s : state) : bytes :=
  be_bytes 4 (ha s) ++ be_bytes 4 (hb s) ++ be_bytes 4 (hc s) ++
  be_bytes 4 (hd s) ++ be_bytes 4 (he s) ++ be_bytes 4 (hf s) ++
  be_bytes 4 (hg s) ++ be_bytes 4 (hh s).

Definition sha256 (m : bytes) : bytes :=
  let p := pad m in
  digest_bytes (blocks K (Nat.div (length p) 64) H0 p).

End SHA256.

(** ** HMAC (RFC 2104) with SHA-256 *)

Module HMAC.

Definition block_size : nat := 64.

(** A key longer than one block is hashed first; the result is filled with
    zero bytes up to one block. *)
Definition block_key (key : bytes) : bytes :=
  let k := if Nat.ltb block_size (length key) then SHA256.sha256 key else key in
  k ++ repeat 0 (block_size - length k).

Definition xor_with (c : Z) (k : bytes) : bytes := map (Z.lxor c) k.

Definition hmac_sha256 (key msg : bytes) : bytes :=
  let k := block_key key in
  SHA256.sha256 (xor_with 0x5c k ++ SHA256.sha256 (xor_with 0x36 k ++ msg)).

End HMAC.

(** ** Hexadecimal rendering: [digest('hex')] and [toString('hex')] *)

Definition hex_digit (d : Z) : Z := if d <? 10 then 48 + d else 87 + d.

Fixpoint hex (b : bytes) : jsstring :=
  match b with
  | [] => []
  | x :: rest => hex_digit (x / 16) :: hex_digit (x mod 16) :: hex rest
  end.

(** ** Built-ins of the string type *)

(** UTF-8 bytes of a JavaScript string, the default encoding of
    [createHmac(_, key)] and [update(message)].  A surrogate pair becomes one
    four-byte sequence; a surrogate on its own becomes U+FFFD. *)
Definition is_high_surrogate (c : Z) : bool := (0xD800 <=? c) && (c <=? 0xDBFF).
Definition is_low_surrogate (c : Z) : bool := (0xDC00 <=? c) && (c <=? 0xDFFF).

Definition utf8_replacement : bytes := [0xEF; 0xBF; 0xBD].

Definition utf8_3 (c : Z) : bytes :=
  [0xE0 + c / 4096; 0x80 + (c / 64) mod 64; 0x80 + c mod 64].

Definition utf8_4 (hi lo : Z) : bytes :=
  let cp := 0x10000 + (hi - 0xD800) * 1024 + (lo - 0xDC00) in
  [0xF0 + cp / 262144; 0x80 + (cp / 4096) mod 64;
   0x80 + (cp / 64) mod 64; 0x80 + cp mod 64].

Fixpoint utf8_encode (s : jsstring) : bytes :=
  match s with
  | [] => []
  | c :: rest =>
      if c <? 0x80 then c :: utf8_encode rest
      else if c <? 0x800 then
        (0xC0 + c / 64) :: (0x80 + c mod 64) :: utf8_encode rest
      else if is_high_surrogate c then
        match rest with
        | d :: rest' =>
            if is_low_surrogate d then utf8_4 c d ++ utf8_encode rest'
            else utf8_replacement ++ utf8_encode rest
        | [] => utf8_replacement
        end
      else if is_low_surrogate c then utf8_replacement ++ utf8_encode rest
      else utf8_3 c ++ utf8_encode rest
  end.

(** [String.prototype.trim]: the code units of WhiteSpace and LineTerminator
    are removed from BOTH ends of the string. *)
Definition is_whitespace (c : Z) : bool :=
  ((9 <=? c) && (c <=? 13)) || (c =? 32) || (c =? 0xA0) || (c =? 0x1680) ||
  ((0x2000 <=? c) && (c <=? 0x200A)) || (c =? 0x2028) || (c =? 0x2029) ||
  (c =? 0x202F) || (c =? 0x205F) || (c =? 0x3000) || (c =? 0xFEFF).

Fixpoint trimStart (s : jsstring) : jsstring :=
  match s with
  | c :: rest => if is_whitespace c then trimStart rest else s
  | [] => []
  end.

Definition trimEnd (s : jsstring) : jsstring := rev (trimStart (rev s)).

Definition trim (s : jsstring) : jsstring := trimStart (trimEnd s).

(** [String.prototype.toUpperCase].  The program applies it to hex digests
    and to header values, whose code units are below 0x100; the mapping is
    Unicode's for that range (including U+00B5, U+00DF and U+00FF, whose
    upper-case forms leave the range).  Code units from 0x100 on are not in
    this table and are passed through. *)
Definition upper_unit (c : Z) : jsstring :=
  if (0x61 <=? c) && (c <=? 0x7A) then [c - 32]
  else if c =? 0xB5 then [0x39C]
  else if c =? 0xDF then [0x53; 0x53]
  else if (0xE0 <=? c) && (c <=? 0xFE) && negb (c =? 0xF7) then [c - 32]
  else if c =? 0xFF then [0x178]
  else [c].

Definition toUpperCase (s : jsstring) : jsstring := flat_map upper_unit s.

(** [String.prototype.substring(start, end)]: both indices are clamped to
    the string and swapped when out of order. *)
Definition clamp (len i : Z) : Z := Z.max 0 (Z.min i len).

Definition substring (s : jsstring) (i j : Z) : jsstring :=
  let len := Z.of_nat (length s) in
  let a := clamp len i in
  let b := clamp len j in
  firstn (Z.to_nat (Z.max a b - Z.min a b)) (skipn (Z.to_nat (Z.min a b)) s).

Definition substring_from (s : jsstring) (i : Z) : jsstring :=
  substring s i (Z.of_nat (length s)).

(** [String.prototype.padStart(n, '0')] and [String.prototype.repeat]. *)
Definition padStart (n : nat) (fill : Z) (s : jsstring) : jsstring :=
  repeat fill (n - length s) ++ s.

Definition repeat_unit (c : Z) (n : Z) : jsstring := repeat c (Z.to_nat n).

(** ** Values *)

(** The values [JSON.parse] and the request body can hold.  Numbers are the
    integers: the payload's TOKEN_REQID is an integer, and an integer of
    magnitude below 10^21 prints as its decimal digits.  Fractions, NaN and
    the negative zero are outside this model. *)
#[local] Set Warnings "-register-all".

Inductive jsvalue :=
| JUndefined
| JNull
| JBool (b : bool)
| JNum (n : Z)
| JStr (s : jsstring)
| JArr (items : list jsvalue)
| JObj (fields : list (jsstring * jsvalue)).

(** ToBoolean, the test of [if (x)], [!x], [a && b] and [a || b]. *)
Definition truthy (v : jsvalue) : bool :=
  match v with
  | JUndefined | JNull => false
  | JBool b => b
  | JNum n => negb (n =? 0)
  | JStr s => match s with [] => false | _ => true end
  | JArr _ | JObj _ => true
  end.

Fixpoint lookup (key : jsstring) (fields : list (jsstring * jsvalue)) : option jsvalue :=
  match fields with
  | [] => None
  | (k, v) :: rest => if jsstring_eqb k key then Some v else lookup key rest
  end.

Definition Number_toString (n : Z) : jsstring :=
  js (NilZero.string_of_int (Z.to_int n)).

(** ToString, as applied by a template literal.  An object answers through
    [Object.prototype.toString] unless a field of its own named [toString]
    hides that method: a parsed field is never callable, the conversion
    falls back on [valueOf], which gives no primitive either, and a
    TypeError is raised ([None]).  An array joins its elements with commas,
    [null] and [undefined] printing as nothing. *)
Fixpoint ToString (v : jsvalue) : option jsstring :=
  match v with
  | JUndefined => Some (js "undefined")
  | JNull => Some (js "null")
  | JBool true => Some (js "true")
  | JBool false => Some (js "false")
  | JNum n => Some (Number_toString n)
  | JStr s => Some s
  | JArr items =>
      (fix join (l : list jsvalue) : option jsstring :=
         match l with
         | [] => Some []
         | x :: rest =>
             let sx := match x with
                       | JUndefined | JNull => Some []
                       | _ => ToString x
                       end in
             match sx, rest with
             | None, _ => None
             | Some s, [] => Some s
             | Some s, _ :: _ =>
                 match join rest with
                 | Some r => Some (s ++ js "," ++ r)
                 | None => None
                 end
             end
         end) items
  | JObj fields =>
      match lookup (js "toString") fields with
      | Some _ => None
      | None => Some (js "[object Object]")
      end
  end.

(** ** [Date]: the UTC fields of a time value (ECMA-262, 21.4.1)

    A time value is a number of milliseconds since 1970-01-01T00:00:00Z. *)

Module Date.

Definition msPerDay : Z := 86400000.

Definition Day (t : Z) : Z := t / msPerDay.

Definition DayFromYear (y : Z) : Z :=
  365 * (y - 1970) + (y - 1969) / 4 - (y - 1901) / 100 + (y - 1601) / 400.

Definition DaysInYear (y : Z) : Z :=
  if negb (y mod 4 =? 0) then 365
  else if negb (y mod 100 =? 0) then 366
  else if negb (y mod 400 =? 0) then 365
  else 366.

(** The largest year whose first day is not after the given day: an
    estimate from the mean length of a year, moved by one where needed. *)
Definition YearFromDay (d : Z) : Z :=
  let y := 1970 + (d * 400) / 146097 in
  if d <? DayFromYear y then y - 1
  else if DayFromYear (y + 1) <=? d then y + 1
  else y.

Definition YearFromTime (t : Z) : Z := YearFromDay (Day t).

Definition InLeapYear (t : Z) : Z :=
  if DaysInYear (YearFromTime t) =? 366 then 1 else 0.

Definition DayWithinYear (t : Z) : Z := Day t - DayFromYear (YearFromTime t).

Definition MonthFromTime (t : Z) : Z :=
  let d := DayWithinYear t in
  let l := InLeapYear t in
  if d <? 31 then 0
  else if d <? 59 + l then 1
  else if d <? 90 + l then 2
  else if d <? 120 + l then 3
  else if d <? 151 + l then 4
  else if d <? 181 + l then 5
  else if d <? 212 + l then 6
  else if d <? 243 + l then 7
  else if d <? 273 + l then 8
  else if d <? 304 + l then 9
  else if d <? 334 + l then 10
  else 11.

Definition DateFromTime (t : Z) : Z :=
  let d := DayWithinYear t in
  let l := InLeapYear t in
  match MonthFromTime t with
  | 0 => d + 1
  | 1 => d - 30
  | 2 => d - 58 - l
  | 3 => d - 89 - l
  | 4 => d - 119 - l
  | 5 => d - 150 - l
  | 6 => d - 180 - l
  | 7 => d - 211 - l
  | 8 => d - 242 - l
  | 9 => d - 272 - l
  | 10 => d - 303 - l
  | _ => d - 333 - l
  end.

Definition HourFromTime (t : Z) : Z := (t / 3600000) mod 24.
Definition MinFromTime (t : Z) : Z := (t / 60000) mod 60.
Definition SecFromTime (t : Z) : Z := (t / 1000) mod 60.

(** [new Date()] reads the clock.  The object holds the time value; its
    local-time getters also depend on the zone of the process. *)
Record t := mk { time : Z; zone_offset_ms : Z }.

Definition getUTCFullYear (d : t) : Z := YearFromTime (time d).
Definition getUTCMonth (d : t) : Z := MonthFromTime (time d).
Definition getUTCDate (d : t) : Z := DateFromTime (time d).
Definition getUTCHours (d : t) : Z := HourFromTime (time d).
Definition getUTCMinutes (d : t) : Z := MinFromTime (time d).
Definition getUTCSeconds (d : t) : Z := SecFromTime (time d).

Definition LocalTime (d : t) : Z := time d + zone_offset_ms d.
Definition getFullYear (d : t) : Z := YearFromTime (LocalTime d).
Definition getMonth (d : t) : Z := MonthFromTime (LocalTime d).
Definition getDate (d : t) : Z := DateFromTime (LocalTime d).
Definition getHours (d : t) : Z := HourFromTime (LocalTime d).
Definition getMinutes (d : t) : Z := MinFromTime (LocalTime d).
Definition getSeconds (d : t) : Z := SecFromTime (LocalTime d).

End Date.

(** ** Effects: console output, the outbound call, exceptions *)

(** A URL is kept in parts: the address it was made from and the query
    parameters appended to it, in order. *)
Record URL := mkURL { href : jsstring; searchParams : list (jsstring * jsstring) }.

Record outbound := mkOutbound { out_url : URL; out_headers : list (jsstring * jsstring) }.

(** What [axios.get] resolves to.  Header names arrive in lower case. *)
Record axios_response := mkResponse {
  status : Z;
  headers : list (string * string);
  data : string
}.

(** TypeErrors raised by the runtime itself. *)
Inductive fault :=
| CannotDestructure          (* const { p } = x, with x undefined or null *)
| CannotReadProperty         (* x.p, with x undefined or null *)
| NotAFunction               (* x.m(...), with x.m not callable *)
| CannotConvertToPrimitive   (* a template literal over an object with no usable toString *)
| InvalidURL.                (* new URL(s) *)

(** An exception; [response] is the [error.response] of a rejected axios
    call, present when the remote service answered with an error status. *)
Inductive exn :=
| TypeError (f : fault)
| SyntaxError (message : jsstring)
| AxiosError (message : jsstring) (response : option (Z * string)).

Inductive level := LOG | WARN | ERROR.

Inductive arg :=
| AVal (v : jsvalue)
| AUrl (u : URL)
| AHeaders (h : list (string * string))
| ABuffer (b : string)
| AErr (e : exn).

Inductive event :=
| Console (l : level) (args : list arg)
| HttpGet (o : outbound).

(** A computation leaves a trace of events and ends with a value or with an
    exception. *)
Definition M (A : Type) : Type := (list event * (exn + A))%type.

Definition ret {A} (a : A) : M A := ([], inr a).

Definition bind {A B} (m : M A) (k : A -> M B) : M B :=
  match m with
  | (tr, inl e) => (tr, inl e)
  | (tr, inr a) => let (tr', r) := k a in (tr ++ tr', r)
  end.

Definition throw {A} (e : exn) : M A := ([], inl e).

Definition emit (ev : event) : M unit := ([ev], inr tt).

Definition try_catch {A} (body : M A) (handler : exn -> M A) : M A :=
  match body with
  | (tr, inl e) => let (tr', r) := handler e in (tr ++ tr', r)
  | (tr, inr a) => (tr, inr a)
  end.

Declare Scope js_scope.
Delimit Scope js_scope with js.
Notation "x <- c ;; k" := (bind c (fun x => k))
  (at level 61, c at next level, right associativity) : js_scope.
Notation "c ;;; k" := (bind c (fun _ => k))
  (at level 61, right associativity) : js_scope.

Definition trace {A} (m : M A) : list event := fst m.
Definition outcome {A} (m : M A) : exn + A := snd m.

Definition str (s : string) : arg := AVal (JStr (js s)).
Definition console_log (args : list arg) : M unit := emit (Console LOG args).
Definition console_warn (args : list arg) : M unit := emit (Console WARN args).
Definition console_error (args : list arg) : M unit := emit (Console ERROR args).

(** [`${v}`] *)
Definition template (v : jsvalue) : M jsstring :=
  match ToString v with
  | Some s => ret s
  | None => throw (TypeError CannotConvertToPrimitive)
  end.

(** [v.key] and [const { key } = v], for a key that no prototype defines. *)
Definition get_prop (nullish : fault) (v : jsvalue) (key : jsstring) : M jsvalue :=
  match v with
  | JUndefined | JNull => throw (TypeError nullish)
  | JObj fields => ret (match lookup key fields with Some x => x | None => JUndefined end)
  | _ => ret JUndefined
  end.

(** The receiver of a string method: [v.substring(...)], [v.toUpperCase()]. *)
Definition string_method (v : jsvalue) : M jsstring :=
  match v with
  | JStr s => ret s
  | JUndefined | JNull => throw (TypeError CannotReadProperty)
  | _ => throw (TypeError NotAFunction)
  end.

(** ** Configuration *)

(** [CONFIG] and [PORT].  Each is an environment string or its default;
    [PORT] is kept as it prints.  TIMESTAMP_TOLERANCE is never read. *)
Record config := mkConfig {
  SECRET_KEY : jsstring;
  SITE_ID : jsstring;
  TOKEN_SERVICE_URL : jsstring;
  API_VERSION : jsstring;
  PORT : jsstring
}.

Definition default_config : config :=
  mkConfig (js "Password123") (js "9201")
           (js "https://t1api.inoviopay.com/payment/token_service.cfm")
           (js "2.22") (js "3000").

Definition with_secret (c : config) (k : jsstring) : config :=
  mkConfig k (SITE_ID c) (TOKEN_SERVICE_URL c) (API_VERSION c) (PORT c).

(** ** Utility functions *)

Definition generateTimestamp (now : Date.t) : jsstring :=
  let year := Date.getUTCFullYear now in
  let month := padStart 2 48 (Number_toString (Date.getUTCMonth now + 1)) in
  let day := padStart 2 48 (Number_toString (Date.getUTCDate now)) in
  let hours := padStart 2 48 (Number_toString (Date.getUTCHours now)) in
  let minutes := padStart 2 48 (Number_toString (Date.getUTCMinutes now)) in
  let seconds := padStart 2 48 (Number_toString (Date.getUTCSeconds now)) in
  Number_toString year ++ month ++ day ++ hours ++ minutes ++ seconds.

Definition generateSignature (secretKey message : jsstring) : jsstring :=
  hex (HMAC.hmac_sha256 (utf8_encode secretKey) (utf8_encode message)).

(** [crypto.randomBytes(16).toString('hex')], given the bytes drawn. *)
Definition generateUniqueId (randomBytes : nat -> bytes) : jsstring :=
  hex (randomBytes 16%nat).

Local Open Scope js_scope.

Definition verifyResponseSignature
    (secretKey : jsstring) (receivedSignature serverTimestamp tokenRequestId : jsvalue)
    (rawResponseBody : jsstring) : M bool :=
  ts <- template serverTimestamp ;;
  reqid <- template tokenRequestId ;;
  let message := ts ++ reqid ++ rawResponseBody in
  let expectedSignature := toUpperCase (generateSignature secretKey message) in
  received <- string_method receivedSignature ;;
  let isValid := jsstring_eqb expectedSignature (toUpperCase received) in
  console_log [AVal (JStr (10 :: js "--- Response Signature Verification ---"))] ;;;
  console_log [str "Server Timestamp:"; AVal serverTimestamp] ;;;
  console_log [str "Token Request ID:"; AVal tokenRequestId] ;;;
  console_log [str "Expected Signature:"; AVal (JStr expectedSignature)] ;;;
  console_log [str "Received Signature:"; AVal (JStr (toUpperCase received))] ;;;
  console_log [str "Result:";
               AVal (JStr (if isValid then 0x2705 :: js " VALID"
                           else 0x274C :: js " INVALID"))] ;;;
  ret isValid.

(** ** The route POST /api/generate-token *)

Inductive reply_value :=
| RVal (v : jsvalue)
| RBuffer (b : string).

(** [res.status(code).json(body)] *)
Record reply := mkReply { code : Z; body : list (jsstring * reply_value) }.

(** What the process reads from outside during one request.  A rejected
    call carries the message of its error and, when the service answered
    with an error status, that status and the bytes of the answer. *)
Record world := mkWorld {
  clock : Date.t;
  randomBytes : nat -> bytes;
  network : outbound -> (jsstring * option (Z * string)) + axios_response
}.

Definition header (name : string) (h : list (string * string)) : jsvalue :=
  match find (fun kv => String.eqb (fst kv) name) h with
  | Some kv => JStr (latin1_decode (snd kv))
  | None => JUndefined
  end.

Definition axios_get (w : world) (o : outbound) : M axios_response :=
  emit (HttpGet o) ;;;
  match network w o with
  | inl (message, response) => throw (AxiosError message response)
  | inr r => ret r
  end.

Section Runtime.

(** Built-ins the route calls and the repository does not define:
    [JSON.parse] ([inl] carries the message of its SyntaxError), the
    validity test of [new URL], and the text of the engine's TypeErrors. *)
Variable JSON_parse : jsstring -> jsstring + jsvalue.
Variable URL_valid : jsstring -> bool.
Variable fault_message : fault -> jsstring.

Definition error_message (e : exn) : jsstring :=
  match e with
  | TypeError f => fault_message f
  | SyntaxError m => m
  | AxiosError m _ => m
  end.

Definition error_response (e : exn) : option (Z * string) :=
  match e with
  | AxiosError _ r => r
  | _ => None
  end.

Definition new_URL (s : jsstring) : M URL :=
  if URL_valid s then ret (mkURL s []) else throw (TypeError InvalidURL).

Definition append (u : URL) (k v : jsstring) : URL :=
  mkURL (href u) (searchParams u ++ [(k, v)]).

Definition parse (s : jsstring) : M jsvalue :=
  match JSON_parse s with
  | inl m => throw (SyntaxError m)
  | inr v => ret v
  end.

(** Lines 207-249: the check of the response and the answer to the caller. *)
Definition check_response (CONFIG : config) (response : axios_response)
    (rawResponseBody : jsstring) (parsedData : jsvalue) : M reply :=
  let serverTimestamp := header "x-timestamp" (headers response) in
  let serverSignature := header "x-signature" (headers response) in
  tokenRequestId <- get_prop CannotReadProperty parsedData (js "TOKEN_REQID") ;;
  verdict <-
    (if truthy serverSignature && truthy serverTimestamp && truthy tokenRequestId then
       isValid <- verifyResponseSignature (SECRET_KEY CONFIG) serverSignature
                    serverTimestamp tokenRequestId (trim rawResponseBody) ;;
       if negb isValid then
         console_error [AVal (JStr (0x274C :: js " Response signature verification FAILED!"))] ;;;
         ts <- template serverTimestamp ;;
         reqid <- template tokenRequestId ;;
         ret (Some (mkReply 200
           [ (js "success", RVal (JBool false));
             (js "error", RVal (JStr (js "Response signature verification failed")));
             (js "signatureVerified", RVal (JBool false));
             (js "receivedSignature", RVal serverSignature);
             (js "expectedSignature",
                RVal (JStr (toUpperCase (generateSignature (SECRET_KEY CONFIG)
                                           (ts ++ reqid ++ trim rawResponseBody)))));
             (js "serverTimestamp", RVal serverTimestamp);
             (js "tokenRequestId", RVal tokenRequestId);
             (js "responseData", RVal parsedData) ]))
       else
         console_log [AVal (JStr (0x2705 :: js " Response signature verified successfully!"))] ;;;
         ret None
     else
       console_warn [AVal (JStr ([0x26A0; 0xFE0F] ++
                     js " Response missing signature headers - skipping verification"))] ;;;
       ret None) ;;
  match verdict with
  | Some failure => ret failure
  | None =>
      ret (mkReply 200
        [ (js "success", RVal (JBool true));
          (js "signatureVerified", RVal (JBool true));
          (js "token", RVal parsedData) ])
  end.

(** Lines 147-205: the request and the call to the token service. *)
Definition tokenize (CONFIG : config) (w : world) (req_body : jsvalue) : M reply :=
  cardPan <- get_prop CannotDestructure req_body (js "cardPan") ;;
  if negb (truthy cardPan) then
    ret (mkReply 400 [ (js "error", RVal (JStr (js "Missing required field: cardPan"))) ])
  else
    let timestamp := generateTimestamp (clock w) in
    let uniqueId := generateUniqueId (randomBytes w) in
    let siteId := SITE_ID CONFIG in
    let messageToSign := timestamp ++ uniqueId ++ siteId in
    let signature := generateSignature (SECRET_KEY CONFIG) messageToSign in
    console_log [AVal (JStr (10 :: js "--- Token Request Generation ---"))] ;;;
    pan <- string_method cardPan ;;
    console_log [str "Card PAN:";
                 AVal (JStr (substring pan 0 6 ++ js "******" ++
                             substring_from pan (Z.of_nat (length pan) - 4)))] ;;;
    console_log [str "Timestamp:"; AVal (JStr timestamp)] ;;;
    console_log [str "Unique ID:"; AVal (JStr uniqueId)] ;;;
    console_log [str "Site ID:"; AVal (JStr siteId)] ;;;
    console_log [str "Message to Sign:"; AVal (JStr messageToSign)] ;;;
    console_log [str "Generated Signature:"; AVal (JStr signature)] ;;;
    url <- new_URL (TOKEN_SERVICE_URL CONFIG) ;;
    let url := append url (js "CARD_PAN") pan in
    let url := append url (js "REQUEST_API_VERSION") (API_VERSION CONFIG) in
    let url := append url (js "UNIQUE_ID") uniqueId in
    let url := append url (js "SITE_ID") siteId in
    let url := append url (js "REQUEST_RESPONSE_FORMAT") (js "JSON") in
    let request_headers := [ (js "X-SIGNATURE", signature); (js "X-TIMESTAMP", timestamp) ] in
    console_log [str "Request URL:"; AUrl url] ;;;
    console_log [str "Request Headers:";
                 AVal (JObj [ (js "X-SIGNATURE", JStr signature);
                              (js "X-TIMESTAMP", JStr timestamp) ])] ;;;
    response <- axios_get w (mkOutbound url request_headers) ;;
    let rawResponseBody := latin1_decode (data response) in
    parsedData <- parse rawResponseBody ;;
    console_log [AVal (JStr (10 :: js "--- Token Service Response ---"))] ;;;
    console_log [str "Status:"; AVal (JNum (status response))] ;;;
    console_log [str "Response Headers:"; AHeaders (headers response)] ;;;
    console_log [str "Raw Response Body:"; AVal (JStr rawResponseBody)] ;;;
    console_log [str "Parsed Response Data:"; AVal parsedData] ;;;
    check_response CONFIG response rawResponseBody parsedData.

(** Lines 251-270: the [catch] clause. *)
Definition on_error (error : exn) : M reply :=
  console_error [AVal (JStr (10 :: js "--- Error ---"))] ;;;
  console_error [str "Error Message:"; AVal (JStr (error_message error))] ;;;
  match error_response error with
  | Some (st, d) =>
      console_error [str "Response Status:"; AVal (JNum st)] ;;;
      console_error [str "Response Data:"; ABuffer d] ;;;
      ret (mkReply st [ (js "error", RVal (JStr (js "Token service error")));
                        (js "details", RBuffer d) ])
  | None =>
      console_error [str "Error Details:"; AErr error] ;;;
      ret (mkReply 500 [ (js "error", RVal (JStr (js "Internal server error")));
                         (js "message", RVal (JStr (error_message error))) ])
  end.

Definition generate_token (CONFIG : config) (w : world) (req_body : jsvalue) : M reply :=
  try_catch (tokenize CONFIG w req_body) on_error.

End Runtime.

(** ** Server start-up: the callback of [app.listen] *)

Definition listening (CONFIG : config) : M unit :=
  let rule := repeat_unit 61 50 in
  let key := SECRET_KEY CONFIG in
  console_log [AVal (JStr (10 :: rule))] ;;;
  console_log [str "Inovio Tokenization API - Reference Server"] ;;;
  console_log [AVal (JStr rule)] ;;;
  console_log [AVal (JStr (10 :: js "Server running on port " ++ PORT CONFIG))] ;;;
  console_log [AVal (JStr (js "Web interface: http://localhost:" ++ PORT CONFIG))] ;;;
  console_log [AVal (JStr (js "Health check:  http://localhost:" ++ PORT CONFIG ++ js "/health"))] ;;;
  console_log [AVal (JStr (10 :: js "Configuration:"))] ;;;
  console_log [AVal (JStr (js "  Site ID:       " ++ SITE_ID CONFIG))] ;;;
  console_log [AVal (JStr (js "  API Version:   " ++ API_VERSION CONFIG))] ;;;
  console_log [AVal (JStr (js "  Service URL:   " ++ TOKEN_SERVICE_URL CONFIG))] ;;;
  console_log [AVal (JStr (js "  Secret Key:    " ++ substring key 0 3 ++
                           repeat_unit 42 (Z.max 0 (Z.of_nat (length key) - 3))))] ;;;
  console_log [AVal (JStr (10 :: rule ++ [10]))].

Local Close Scope js_scope.

(** ** The specification's wording, for comparison with the code *)

Module Spec.

(** A number written with exactly [w] decimal digits, zero-padded. *)
Fixpoint fixed_width (w : nat) (n : Z) : jsstring :=
  match w with
  | O => []
  | S w' => (48 + (n / 10 ^ Z.of_nat w') mod 10) :: fixed_width w' n
  end.

(** YYYYMMDDHHmmss from the UTC fields of an instant. *)
Definition utc_timestamp (t : Z) : jsstring :=
  fixed_width 4 (Date.YearFromTime t) ++
  fixed_width 2 (Date.MonthFromTime t + 1) ++
  fixed_width 2 (Date.DateFromTime t) ++
  fixed_width 2 (Date.HourFromTime t) ++
  fixed_width 2 (Date.MinFromTime t) ++
  fixed_width 2 (Date.SecFromTime t).

Definition lower_digits : jsstring := js "0123456789abcdef".
Definition upper_digits : jsstring := js "0123456789ABCDEF".

Definition render (digits : jsstring) (b : bytes) : jsstring :=
  flat_map (fun x => [nth (Z.to_nat (x / 16)) digits 0;
                      nth (Z.to_nat (x mod 16)) digits 0]) b.

Definition keyed_hash (secretKey message : jsstring) : bytes :=
  HMAC.hmac_sha256 (utf8_encode secretKey) (utf8_encode message).

(** Request side: timestamp ++ nonce ++ merchantId, lower-case hex. *)
Definition request_signature (secretKey timestamp nonce merchantId : jsstring) : jsstring :=
  render lower_digits (keyed_hash secretKey (timestamp ++ nonce ++ merchantId)).

(** Response side: serverTimestamp ++ requestId ++ trimmedRawBody, upper-case hex. *)
Definition expected_signature (secretKey serverTimestamp requestId trimmedRawBody : jsstring) : jsstring :=
  render upper_digits (keyed_hash secretKey (serverTimestamp ++ requestId ++ trimmedRawBody)).

End Spec.

(** ** Character classes and case variants *)

Definition is_byte (b : Z) : Prop := 0 <= b < 256.

Definition is_digit (c : Z) : bool := (48 <=? c) && (c <=? 57).
Definition is_lower_hex (c : Z) : bool := is_digit c || ((97 <=? c) && (c <=? 102)).
Definition is_upper_hex (c : Z) : bool := is_digit c || ((65 <=? c) && (c <=? 70)).

(** [lo] is a lower-case letter and [up] its capital. *)
Definition case_pair (lo up : Z) : Prop :=
  ((0x61 <= lo <= 0x7A) \/ (0xE0 <= lo <= 0xFE /\ lo <> 0xF7)) /\ up = lo - 32.

(** Two strings that differ only in the case of their letters. *)
Definition case_variant : jsstring -> jsstring -> Prop :=
  Forall2 (fun a b => a = b \/ case_pair a b \/ case_pair b a).

(** The events of a trace that reach the token service. *)
Definition sent (tr : list event) : list outbound :=
  flat_map (fun ev => match ev with HttpGet o => [o] | Console _ _ => [] end) tr.

(** The answer of the route when verification is skipped or succeeds. *)
Definition success_reply (parsedData : jsvalue) : reply :=
  mkReply 200
    [ (js "success", RVal (JBool true));
      (js "signatureVerified", RVal (JBool true));
      (js "token", RVal parsedData) ].

Definition skip_warning : event :=
  Console WARN [AVal (JStr ([0x26A0; 0xFE0F] ++
    js " Response missing signature headers - skipping verification"))].

(** Decision of [case_variant], for the examples. *)
Definition case_pairb (lo up : Z) : bool :=
  ((((0x61 <=? lo) && (lo <=? 0x7A)) ||
    ((0xE0 <=? lo) && (lo <=? 0xFE) && negb (lo =? 0xF7))) && (up =? lo - 32))%bool.

Fixpoint case_variantb (a b : jsstring) : bool :=
  match a, b with
  | [], [] => true
  | x :: a', y :: b' =>
      ((x =? y) || case_pairb x y || case_pairb y x) && case_variantb a' b'
  | _, _ => false
  end.

(** What [verifyResponseSignature] writes to the console. *)
Definition verification_log (serverTimestamp tokenRequestId : jsvalue)
    (expectedSignature receivedUpper : jsstring) (isValid : bool) : list event :=
  [ Console LOG [AVal (JStr (10 :: js "--- Response Signature Verification ---"))];
    Console LOG [str "Server Timestamp:"; AVal serverTimestamp];
    Console LOG [str "Token Request ID:"; AVal tokenRequestId];
    Console LOG [str "Expected Signature:"; AVal (JStr expectedSignature)];
    Console LOG [str "Received Signature:"; AVal (JStr receivedUpper)];
    Console LOG [str "Result:";
                 AVal (JStr (if isValid then 0x2705 :: js " VALID"
                             else 0x274C :: js " INVALID"))] ].

(** ** The route, stage by stage *)

(** The falsy values, by enumeration (ECMA-262, ToBoolean). *)
Inductive falsy : jsvalue -> Prop :=
| falsy_undefined : falsy JUndefined
| falsy_null : falsy JNull
| falsy_false : falsy (JBool false)
| falsy_zero : falsy (JNum 0)
| falsy_empty : falsy (JStr []).

(** The call the route makes for a card number. *)
Definition the_request (CONFIG : config) (w : world) (pan : jsstring) : outbound :=
  let timestamp := generateTimestamp (clock w) in
  let uniqueId := generateUniqueId (randomBytes w) in
  mkOutbound
    (mkURL (TOKEN_SERVICE_URL CONFIG)
       [ (js "CARD_PAN", pan);
         (js "REQUEST_API_VERSION", API_VERSION CONFIG);
         (js "UNIQUE_ID", uniqueId);
         (js "SITE_ID", SITE_ID CONFIG);
         (js "REQUEST_RESPONSE_FORMAT", js "JSON") ])
    [ (js "X-SIGNATURE",
       generateSignature (SECRET_KEY CONFIG) (timestamp ++ uniqueId ++ SITE_ID CONFIG));
      (js "X-TIMESTAMP", timestamp) ].

(** Console output before the call. *)
Definition request_log (CONFIG : config) (w : world) (pan : jsstring) : list event :=
  let timestamp := generateTimestamp (clock w) in
  let uniqueId := generateUniqueId (randomBytes w) in
  let messageToSign := timestamp ++ uniqueId ++ SITE_ID CONFIG in
  let signature := generateSignature (SECRET_KEY CONFIG) messageToSign in
  [ Console LOG [AVal (JStr (10 :: js "--- Token Request Generation ---"))];
    Console LOG [str "Card PAN:";
                 AVal (JStr (substring pan 0 6 ++ js "******" ++
                             substring_from pan (Z.of_nat (length pan) - 4)))];
    Console LOG [str "Timestamp:"; AVal (JStr timestamp)];
    Console LOG [str "Unique ID:"; AVal (JStr uniqueId)];
    Console LOG [str "Site ID:"; AVal (JStr (SITE_ID CONFIG))];
    Console LOG [str "Message to Sign:"; AVal (JStr messageToSign)];
    Console LOG [str "Generated Signature:"; AVal (JStr signature)];
    Console LOG [str "Request URL:"; AUrl (out_url (the_request CONFIG w pan))];
    Console LOG [str "Request Headers:";
                 AVal (JObj [ (js "X-SIGNATURE", JStr signature);
                              (js "X-TIMESTAMP", JStr timestamp) ])] ].

(** Console output between the answer and its check. *)
Definition response_log (response : axios_response) (parsedData : jsvalue) : list event :=
  [ Console LOG [AVal (JStr (10 :: js "--- Token Service Response ---"))];
    Console LOG [str "Status:"; AVal (JNum (status response))];
    Console LOG [str "Response Headers:"; AHeaders (headers response)];
    Console LOG [str "Raw Response Body:"; AVal (JStr (latin1_decode (data response)))];
    Console LOG [str "Parsed Response Data:"; AVal parsedData] ].

(** The answer of the route to a signature mismatch. *)
Definition failure_reply (receivedSignature : jsvalue) (expectedSignature : jsstring)
    (serverTimestamp tokenRequestId parsedData : jsvalue) : reply :=
  mkReply 200
    [ (js "success", RVal (JBool false));
      (js "error", RVal (JStr (js "Response signature verification failed")));
      (js "signatureVerified", RVal (JBool false));
      (js "receivedSignature", RVal receivedSignature);
      (js "expectedSignature", RVal (JStr expectedSignature));
      (js "serverTimestamp", RVal serverTimestamp);
      (js "tokenRequestId", RVal tokenRequestId);
      (js "responseData", RVal parsedData) ].

Definition failure_error : event :=
  Console ERROR [AVal (JStr (0x274C :: js " Response signature verification FAILED!"))].

Definition verified_log : event :=
  Console LOG [AVal (JStr (0x2705 :: js " Response signature verified successfully!"))].

(** A computation that makes no call to the token service. *)
Definition silent {A} (m : M A) : Prop := sent (trace m) = [].

(** Two keys that sign every message alike. *)
Definition same_signatures (k1 k2 : jsstring) : Prop :=
  forall m, generateSignature k1 m = generateSignature k2 m.

(** ** Fixtures for the worked examples *)

Module Fixture.

(** A header value as the service would put it on the wire. *)
Definition wire (s : jsstring) : string :=
  string_of_list_ascii (map (fun c => ascii_of_N (Z.to_N c)) s).

(** The document [{"TOKEN_REQID":7}]. *)
Definition doc7 : jsstring := js "{" ++ dq ++ js "TOKEN_REQID" ++ dq ++ js ":7}".
Definition parsed7 : jsvalue := JObj [ (js "TOKEN_REQID", JNum 7) ].

(** The document [{"TOKEN_REQID":0}]. *)
Definition doc0 : jsstring := js "{" ++ dq ++ js "TOKEN_REQID" ++ dq ++ js ":0}".
Definition parsed0 : jsvalue := JObj [ (js "TOKEN_REQID", JNum 0) ].

(** [JSON.parse] on the documents of the examples; surrounding white space
    is insignificant in JSON. *)
Definition JSON_parse (s : jsstring) : jsstring + jsvalue :=
  if jsstring_eqb (trim s) doc7 then inr parsed7
  else if jsstring_eqb (trim s) doc0 then inr parsed0
  else inl (js "Unexpected token").

Definition URL_valid (s : jsstring) : bool :=
  jsstring_eqb (firstn 8 s) (js "https://").

Definition fault_message (f : fault) : jsstring :=
  match f with
  | CannotDestructure => js "Cannot destructure property"
  | CannotReadProperty => js "Cannot read properties"
  | NotAFunction => js "is not a function"
  | CannotConvertToPrimitive => js "Cannot convert object to primitive value"
  | InvalidURL => js "Invalid URL"
  end.

(** 2025-11-03T17:00:00Z *)
Definition noon : Date.t := Date.mk 1762189200000 0.

Definition entropy (n : nat) : bytes := map Z.of_nat (seq 160 n).

Definition fields : list (jsstring * jsvalue) :=
  [ (js "cardPan", JStr (js "409159111111111")) ].
Definition request : jsvalue := JObj fields.

(** A token service that answers every call with the given response. *)
Definition answering (r : axios_response) : world :=
  mkWorld noon entropy (fun _ => inr r).

Definition stamp : string := "20251103170005"%string.

(** The service's signature over [signed], in upper case as it sends it. *)
Definition service_signature (reqid signed : jsstring) : jsstring :=
  toUpperCase (generateSignature (SECRET_KEY default_config)
                 (latin1_decode stamp ++ reqid ++ signed)).

(** An answer with body [payload] whose signature was made over [signed]. *)
Definition signed_response (reqid signed payload : jsstring) : axios_response :=
  mkResponse 200
    [ ("x-timestamp"%string, stamp);
      ("x-signature"%string, wire (service_signature reqid signed)) ]
    (wire payload).

(** The same answer without the signature header. *)
Definition unsigned_response (payload : jsstring) : axios_response :=
  mkResponse 200 [ ("x-timestamp"%string, stamp) ] (wire payload).

(** An answer whose signature is sixty-four zeros. *)
Definition forged_response (payload : jsstring) : axios_response :=
  mkResponse 200
    [ ("x-timestamp"%string, stamp); ("x-signature"%string, wire (repeat 48 64)) ]
    (wire payload).

Definition route (w : world) : M reply :=
  generate_token JSON_parse URL_valid fault_message default_config w request.

End Fixture.

(** ** Further definitions used by the properties below *)

(** Code units of one byte, as a header value decoded from the wire has. *)
Definition is_latin1 (s : jsstring) : bool :=
  forallb (fun c => (0 <=? c) && (c <? 256)) s.

(** The card number of a request body, when [cardPan] is a non-empty
    string. *)
Definition card_number (req : jsvalue) : option jsstring :=
  match req with
  | JObj fields =>
      match lookup (js "cardPan") fields with
      | Some (JStr (c :: s)) => Some (c :: s)
      | _ => None
      end
  | _ => None
  end.

(** How a computation ends: [P] holds of the exception it throws, or [Q]
    of the value it returns. *)
Definition ends {A} (P : exn -> Prop) (Q : A -> Prop) (m : M A) : Prop :=
  match outcome m with
  | inl e => P e
  | inr a => Q a
  end.

Definition is_TypeError (e : exn) : Prop := exists f, e = TypeError f.

(** An exception that carries an upstream answer got it from the token
    service. *)
Definition from_service (w : world) (e : exn) : Prop :=
  forall st d, error_response e = Some (st, d) ->
               exists o m, network w o = inl (m, Some (st, d)).

(** [process.env.NAME || fallback]: an unset or empty variable is falsy. *)
Definition env_or (v : option jsstring) (fallback : jsstring) : jsstring :=
  match v with
  | Some (c :: s) => c :: s
  | _ => fallback
  end.

(** Lines 18 and 32-38: [PORT] and [CONFIG] read from the environment. *)
Definition load_config (env : string -> option jsstring) : config :=
  mkConfig (env_or (env "SECRET_KEY"%string) (js "Password123"))
           (env_or (env "SITE_ID"%string) (js "9201"))
           (env_or (env "TOKEN_SERVICE_URL"%string)
                   (js "https://t1api.inoviopay.com/payment/token_service.cfm"))
           (env_or (env "API_VERSION"%string) (js "2.22"))
           (env_or (env "PORT"%string) (js "3000")).

(** * Properties *)

(** ** Known answers *)

Example round_constants :
  (nth 0 SHA256.K 0, nth 63 SHA256.K 0, SHA256.ha SHA256.H0, SHA256.hh SHA256.H0) =
  (0x428a2f98, 0xc67178f2, 0x6a09e667, 0x5be0cd19).
Proof. vm_compute. reflexivity. Qed.

(** FIPS 180-4, "abc" and the empty message; RFC 4231, test case 2. *)
Example sha256_abc :
  hex (SHA256.sha256 [97; 98; 99]) =
  js "ba7816bf8f01cfea414140de5dae2223b00361a396177a9cb410ff61f20015ad".
Proof. vm_compute. reflexivity. Qed.

Example sha256_empty :
  hex (SHA256.sha256 []) =
  js "e3b0c44298fc1c149afbf4c8996fb92427ae41e4649b934ca495991b7852b855".
Proof. vm_compute. reflexivity. Qed.

Example hmac_rfc4231_case2 :
  hex (HMAC.hmac_sha256 (js "Jefe") (js "what do ya want for nothing?")) =
  js "5bdcc146bf60754e6a042426089575c75a003f089d2739839dec58b964ec3843".
Proof. vm_compute. reflexivity. Qed.

(** ** Strings and finite ranges *)

Lemma jsstring_eqb_eq (a b : jsstring) : jsstring_eqb a b = true <-> a = b.
Proof.
  revert b; induction a as [|x a IH]; intros [|y b]; simpl; split;
    try discriminate; try reflexivity.
  - intros H. apply andb_true_iff in H as [Hx Hab].
    apply Z.eqb_eq in Hx. apply IH in Hab. congruence.
  - intros H. injection H as -> ->. rewrite Z.eqb_refl. apply IH. reflexivity.
Qed.

Lemma jsstring_eqb_refl (a : jsstring) : jsstring_eqb a a = true.
Proof. apply jsstring_eqb_eq. reflexivity. Qed.

(** A property checked on every number of a range holds on the range. *)
Lemma forall_range (P : Z -> bool) (lo hi : Z) :
  forallb P (map (fun i => lo + Z.of_nat i) (seq 0 (Z.to_nat (hi - lo)))) = true ->
  forall z, lo <= z < hi -> P z = true.
Proof.
  intros H z Hz. rewrite forallb_forall in H. apply H.
  apply in_map_iff. exists (Z.to_nat (z - lo)). split; [lia|].
  apply in_seq. lia.
Qed.

Lemma two_digits (n : Z) :
  0 <= n < 100 -> padStart 2 48 (Number_toString n) = Spec.fixed_width 2 n.
Proof.
  intros H. apply jsstring_eqb_eq.
  apply (forall_range
           (fun n => jsstring_eqb (padStart 2 48 (Number_toString n))
                                  (Spec.fixed_width 2 n)) 0 100);
    [vm_compute; reflexivity | lia].
Qed.

Lemma four_digits (n : Z) :
  1000 <= n <= 9999 -> Number_toString n = Spec.fixed_width 4 n.
Proof.
  intros H. apply jsstring_eqb_eq.
  apply (forall_range
           (fun n => jsstring_eqb (Number_toString n) (Spec.fixed_width 4 n))
           1000 10000);
    [vm_compute; reflexivity | lia].
Qed.

Lemma fixed_width_length (w : nat) (n : Z) : length (Spec.fixed_width w n) = w.
Proof. induction w; simpl; congruence. Qed.

Lemma fixed_width_digits (w : nat) (n : Z) :
  forallb is_digit (Spec.fixed_width w n) = true.
Proof.
  induction w as [|w IH]; cbn [Spec.fixed_width forallb]; [reflexivity|].
  rewrite IH, andb_true_r. unfold is_digit.
  pose proof (Z.mod_pos_bound (n / 10 ^ Z.of_nat w) 10 ltac:(lia)).
  apply andb_true_iff; split; apply Z.leb_le; lia.
Qed.

(** ** The calendar *)

Module DateFacts.
Import Date.

(** [YearFromDay] is the year the day falls in. *)
Lemma YearFromDay_bounds (d : Z) :
  DayFromYear (YearFromDay d) <= d < DayFromYear (YearFromDay d + 1).
Proof.
  unfold YearFromDay.
  destruct (Z.ltb_spec d (DayFromYear (1970 + d * 400 / 146097))) as [H1|H1];
    [| destruct (Z.leb_spec (DayFromYear (1970 + d * 400 / 146097 + 1)) d) as [H2|H2]];
    unfold DayFromYear in *; Z.div_mod_to_equations; lia.
Qed.

Lemma DayFromYear_increasing (y y' : Z) : y < y' -> DayFromYear y < DayFromYear y'.
Proof. unfold DayFromYear. intros H. Z.div_mod_to_equations. lia. Qed.

(** It is the largest such year, which is how ECMA-262 defines it. *)
Lemma YearFromDay_largest (d y : Z) : DayFromYear y <= d -> y <= YearFromDay d.
Proof.
  intros H. destruct (Z.le_gt_cases y (YearFromDay d)) as [L|G]; [exact L|].
  pose proof (YearFromDay_bounds d) as B.
  destruct (Z.eq_dec y (YearFromDay d + 1)) as [->|N]; [lia|].
  pose proof (DayFromYear_increasing (YearFromDay d + 1) y ltac:(lia)). lia.
Qed.

Lemma DaysInYear_step (y : Z) : DayFromYear (y + 1) - DayFromYear y = DaysInYear y.
Proof.
  unfold DaysInYear, DayFromYear.
  destruct (Z.eqb_spec (y mod 4) 0), (Z.eqb_spec (y mod 100) 0),
           (Z.eqb_spec (y mod 400) 0);
    cbn [negb]; Z.div_mod_to_equations; lia.
Qed.

Lemma DaysInYear_cases (y : Z) : DaysInYear y = 365 \/ DaysInYear y = 366.
Proof.
  unfold DaysInYear.
  destruct (negb (y mod 4 =? 0)), (negb (y mod 100 =? 0)), (negb (y mod 400 =? 0)); auto.
Qed.

Lemma DayWithinYear_range (t : Z) :
  0 <= DayWithinYear t < 365 + InLeapYear t.
Proof.
  unfold DayWithinYear, InLeapYear, YearFromTime.
  pose proof (YearFromDay_bounds (Day t)) as B.
  pose proof (DaysInYear_step (YearFromDay (Day t))) as S.
  destruct (DaysInYear_cases (YearFromDay (Day t))) as [E|E]; rewrite E in *; simpl; lia.
Qed.

Lemma InLeapYear_cases (t : Z) : InLeapYear t = 0 \/ InLeapYear t = 1.
Proof. unfold InLeapYear. destruct (_ =? 366); auto. Qed.

Lemma MonthFromTime_range (t : Z) : 0 <= MonthFromTime t <= 11.
Proof.
  unfold MonthFromTime.
  repeat match goal with |- context [if ?c then _ else _] => destruct c end; lia.
Qed.

Lemma DateFromTime_range (t : Z) : 1 <= DateFromTime t <= 31.
Proof.
  pose proof (DayWithinYear_range t) as R.
  unfold DateFromTime, MonthFromTime.
  destruct (InLeapYear_cases t) as [L|L]; rewrite L in *;
  repeat match goal with
         | |- context [if ?a <? ?b then _ else _] => destruct (Z.ltb_spec a b)
         end; simpl; lia.
Qed.

Lemma HourFromTime_range (t : Z) : 0 <= HourFromTime t < 24.
Proof. unfold HourFromTime. apply Z.mod_pos_bound. lia. Qed.

Lemma MinFromTime_range (t : Z) : 0 <= MinFromTime t < 60.
Proof. unfold MinFromTime. apply Z.mod_pos_bound. lia. Qed.

Lemma SecFromTime_range (t : Z) : 0 <= SecFromTime t < 60.
Proof. unfold SecFromTime. apply Z.mod_pos_bound. lia. Qed.

Example date_2025_11_03 :
  (YearFromTime 1762189200000, MonthFromTime 1762189200000,
   DateFromTime 1762189200000, HourFromTime 1762189200000) = (2025, 10, 3, 17).
Proof. vm_compute. reflexivity. Qed.

Example date_leap_day :
  (YearFromTime 951782400000, MonthFromTime 951782400000,
   DateFromTime 951782400000) = (2000, 1, 29).
Proof. vm_compute. reflexivity. Qed.

Example date_before_epoch :
  (YearFromTime (-1), MonthFromTime (-1), DateFromTime (-1),
   HourFromTime (-1), MinFromTime (-1), SecFromTime (-1)) = (1969, 11, 31, 23, 59, 59).
Proof. vm_compute. reflexivity. Qed.

End DateFacts.

(** ** Request timestamp *)

Lemma generateTimestamp_zone (t z z' : Z) :
  generateTimestamp (Date.mk t z) = generateTimestamp (Date.mk t z').
Proof. reflexivity. Qed.

(** C7, as amended.  For every clock instant whose UTC year has four digits
    (1000 to 9999), the request timestamp is YYYYMMDDHHmmss over the UTC
    fields of the instant: fourteen decimal digits, each component
    zero-padded, no separators, whatever the zone of the process. *)
Theorem generateTimestamp_four_digit_year (now : Date.t) :
  1000 <= Date.getUTCFullYear now <= 9999 ->
  generateTimestamp now = Spec.utc_timestamp (Date.time now) /\
  length (generateTimestamp now) = 14%nat /\
  forallb is_digit (generateTimestamp now) = true /\
  (forall zone, generateTimestamp (Date.mk (Date.time now) zone) = generateTimestamp now).
Proof.
  intros Hy.
  assert (E : generateTimestamp now = Spec.utc_timestamp (Date.time now)).
  { unfold generateTimestamp, Spec.utc_timestamp,
      Date.getUTCFullYear, Date.getUTCMonth, Date.getUTCDate,
      Date.getUTCHours, Date.getUTCMinutes, Date.getUTCSeconds in *.
    pose proof (DateFacts.MonthFromTime_range (Date.time now)).
    pose proof (DateFacts.DateFromTime_range (Date.time now)).
    pose proof (DateFacts.HourFromTime_range (Date.time now)).
    pose proof (DateFacts.MinFromTime_range (Date.time now)).
    pose proof (DateFacts.SecFromTime_range (Date.time now)).
    rewrite four_digits by assumption.
    rewrite !two_digits by lia. reflexivity. }
  split; [exact E|]. rewrite E. split; [|split].
  - unfold Spec.utc_timestamp. rewrite !length_app, !fixed_width_length. reflexivity.
  - unfold Spec.utc_timestamp. rewrite !forallb_app, !fixed_width_digits. reflexivity.
  - intros zone. rewrite <- E. destruct now; reflexivity.
Qed.

Lemma generateTimestamp_four_digit_year_witness :
  1000 <= Date.getUTCFullYear Fixture.noon <= 9999 /\
  generateTimestamp Fixture.noon = Spec.utc_timestamp (Date.time Fixture.noon).
Proof.
  assert (H : 1000 <= Date.getUTCFullYear Fixture.noon <= 9999)
    by (vm_compute; split; discriminate).
  split; [exact H | exact (proj1 (generateTimestamp_four_digit_year Fixture.noon H))].
Defined.

Example generateTimestamp_noon :
  generateTimestamp Fixture.noon = js "20251103170000".
Proof. vm_compute. reflexivity. Qed.

(** C7, as stated, fails: on 1 January 10000 the year takes five digits and
    the timestamp fifteen. *)
Lemma generateTimestamp_year_10000 :
  generateTimestamp (Date.mk 253402300800000 0) = js "100000101000000" /\
  length (generateTimestamp (Date.mk 253402300800000 0)) <> 14%nat.
Proof. split; [vm_compute; reflexivity | vm_compute; discriminate]. Qed.

(** ** Digests and their hexadecimal forms *)

Lemma be_bytes_range (n : nat) (x : Z) : Forall is_byte (SHA256.be_bytes n x).
Proof.
  induction n as [|n IH]; cbn [SHA256.be_bytes]; constructor; [|exact IH].
  apply Z.mod_pos_bound. lia.
Qed.

Lemma be_bytes_length (n : nat) (x : Z) : length (SHA256.be_bytes n x) = n.
Proof. induction n; cbn [SHA256.be_bytes length]; congruence. Qed.

Lemma sha256_length (m : bytes) : length (SHA256.sha256 m) = 32%nat.
Proof.
  unfold SHA256.sha256, SHA256.digest_bytes.
  rewrite !length_app, !be_bytes_length. reflexivity.
Qed.

Lemma sha256_range (m : bytes) : Forall is_byte (SHA256.sha256 m).
Proof.
  unfold SHA256.sha256, SHA256.digest_bytes.
  repeat (apply Forall_app; split); apply be_bytes_range.
Qed.

Lemma hmac_length (key msg : bytes) : length (HMAC.hmac_sha256 key msg) = 32%nat.
Proof. apply sha256_length. Qed.

Lemma hmac_range (key msg : bytes) : Forall is_byte (HMAC.hmac_sha256 key msg).
Proof. apply sha256_range. Qed.

Lemma hex_length (b : bytes) : length (hex b) = (2 * length b)%nat.
Proof. induction b as [|x b IH]; cbn [hex length]; [reflexivity | lia]. Qed.

Lemma nibbles (x : Z) : is_byte x -> 0 <= x / 16 < 16 /\ 0 <= x mod 16 < 16.
Proof. unfold is_byte. intros H. Z.div_mod_to_equations. lia. Qed.

Lemma hex_digit_lower (d : Z) :
  0 <= d < 16 ->
  hex_digit d = nth (Z.to_nat d) Spec.lower_digits 0 /\ is_lower_hex (hex_digit d) = true.
Proof.
  intros H.
  assert (E : (jsstring_eqb [hex_digit d] [nth (Z.to_nat d) Spec.lower_digits 0]
               && is_lower_hex (hex_digit d))%bool = true).
  { apply (forall_range
             (fun d => (jsstring_eqb [hex_digit d] [nth (Z.to_nat d) Spec.lower_digits 0]
                        && is_lower_hex (hex_digit d))%bool) 0 16);
      [vm_compute; reflexivity | exact H]. }
  apply andb_true_iff in E as [E1 E2]. apply jsstring_eqb_eq in E1.
  split; [congruence | exact E2].
Qed.

Lemma hex_digit_upper (d : Z) :
  0 <= d < 16 ->
  upper_unit (hex_digit d) = [nth (Z.to_nat d) Spec.upper_digits 0] /\
  is_upper_hex (nth (Z.to_nat d) Spec.upper_digits 0) = true.
Proof.
  intros H.
  assert (E : (jsstring_eqb (upper_unit (hex_digit d)) [nth (Z.to_nat d) Spec.upper_digits 0]
               && is_upper_hex (nth (Z.to_nat d) Spec.upper_digits 0))%bool = true).
  { apply (forall_range
             (fun d => (jsstring_eqb (upper_unit (hex_digit d))
                                     [nth (Z.to_nat d) Spec.upper_digits 0]
                        && is_upper_hex (nth (Z.to_nat d) Spec.upper_digits 0))%bool) 0 16);
      [vm_compute; reflexivity | exact H]. }
  apply andb_true_iff in E as [E1 E2]. apply jsstring_eqb_eq in E1.
  split; assumption.
Qed.

Lemma render_cons (digits : jsstring) (x : Z) (b : bytes) :
  Spec.render digits (x :: b) =
    nth (Z.to_nat (x / 16)) digits 0 :: nth (Z.to_nat (x mod 16)) digits 0 ::
    Spec.render digits b.
Proof. reflexivity. Qed.

Lemma toUpperCase_cons (c : Z) (s : jsstring) :
  toUpperCase (c :: s) = upper_unit c ++ toUpperCase s.
Proof. reflexivity. Qed.

(** [digest('hex')] writes lower-case digits. *)
Lemma hex_lower (b : bytes) :
  Forall is_byte b ->
  hex b = Spec.render Spec.lower_digits b /\ forallb is_lower_hex (hex b) = true.
Proof.
  induction 1 as [|x b Hx Hb [IH1 IH2]]; [split; reflexivity|].
  destruct (nibbles x Hx) as [Hh Hl].
  destruct (hex_digit_lower _ Hh) as [E1 L1], (hex_digit_lower _ Hl) as [E2 L2].
  rewrite render_cons. cbn [hex forallb]. rewrite L1, L2, IH2. split; [|reflexivity].
  rewrite E1, E2, IH1. reflexivity.
Qed.

(** [toUpperCase] turns them into upper-case digits. *)
Lemma toUpperCase_hex (b : bytes) :
  Forall is_byte b ->
  toUpperCase (hex b) = Spec.render Spec.upper_digits b /\
  forallb is_upper_hex (Spec.render Spec.upper_digits b) = true.
Proof.
  induction 1 as [|x b Hx Hb [IH1 IH2]]; [split; reflexivity|].
  destruct (nibbles x Hx) as [Hh Hl].
  destruct (hex_digit_upper _ Hh) as [E1 U1], (hex_digit_upper _ Hl) as [E2 U2].
  rewrite render_cons. cbn [hex forallb]. rewrite !toUpperCase_cons, E1, E2, IH1, U1, U2, IH2.
  split; reflexivity.
Qed.

Lemma render_length (digits : jsstring) (b : bytes) :
  length (Spec.render digits b) = (2 * length b)%nat.
Proof.
  induction b as [|x b IH]; [reflexivity|].
  rewrite render_cons. cbn [length]. lia.
Qed.

Lemma generateSignature_lower_hex (secretKey message : jsstring) :
  generateSignature secretKey message =
    Spec.render Spec.lower_digits (Spec.keyed_hash secretKey message) /\
  length (generateSignature secretKey message) = 64%nat /\
  forallb is_lower_hex (generateSignature secretKey message) = true.
Proof.
  unfold generateSignature, Spec.keyed_hash.
  destruct (hex_lower _ (hmac_range (utf8_encode secretKey) (utf8_encode message))) as [E L].
  split; [exact E | split; [rewrite hex_length, hmac_length; reflexivity | exact L]].
Qed.

Lemma expected_signature_upper_hex (secretKey ts reqid rawBody : jsstring) :
  toUpperCase (generateSignature secretKey (ts ++ reqid ++ rawBody)) =
    Spec.expected_signature secretKey ts reqid rawBody /\
  length (Spec.expected_signature secretKey ts reqid rawBody) = 64%nat /\
  forallb is_upper_hex (Spec.expected_signature secretKey ts reqid rawBody) = true.
Proof.
  unfold generateSignature, Spec.expected_signature, Spec.keyed_hash.
  destruct (toUpperCase_hex _ (hmac_range (utf8_encode secretKey)
                                 (utf8_encode (ts ++ reqid ++ rawBody)))) as [E U].
  split; [exact E|]. split; [|exact U].
  rewrite render_length, hmac_length. reflexivity.
Qed.

(** ** The response verifier *)

Lemma verifyResponseSignature_eq (secretKey received ts : jsstring) (rid : jsvalue)
    (r rawBody : jsstring) :
  ToString rid = Some r ->
  verifyResponseSignature secretKey (JStr received) (JStr ts) rid rawBody =
    (verification_log (JStr ts) rid
       (toUpperCase (generateSignature secretKey (ts ++ r ++ rawBody)))
       (toUpperCase received)
       (jsstring_eqb (toUpperCase (generateSignature secretKey (ts ++ r ++ rawBody)))
                     (toUpperCase received)),
     inr (jsstring_eqb (toUpperCase (generateSignature secretKey (ts ++ r ++ rawBody)))
                       (toUpperCase received))).
Proof.
  intros H. unfold verifyResponseSignature, template. rewrite H. reflexivity.
Qed.

Example toUpperCase_latin1 :
  toUpperCase [0x61; 0x7A; 0xE9; 0xF7; 0xDF; 0xFF; 0x39] =
  [0x41; 0x5A; 0xC9; 0xF7; 0x53; 0x53; 0x178; 0x39].
Proof. vm_compute. reflexivity. Qed.

Lemma ToString_number (n : Z) : ToString (JNum n) = Some (Number_toString n).
Proof. reflexivity. Qed.

Example ToString_request_id : ToString (JNum 29973496) = Some (js "29973496").
Proof. vm_compute. reflexivity. Qed.

Example ToString_hidden_toString :
  ToString (JObj [ (js "toString", JNum 1) ]) = None.
Proof. vm_compute. reflexivity. Qed.

(** C3.  The verifier's expected signature is HMAC-SHA256, under the secret
    key, of serverTimestamp ++ requestId ++ trimmedRawBody (the request id
    in its string form, nothing between the parts, no merchant id), written
    in upper-case hexadecimal; it is what the verifier logs and what it
    compares the received signature with. *)
Theorem verifier_expected_signature (secretKey received ts : jsstring) (rid : jsvalue)
    (r rawBody : jsstring) :
  ToString rid = Some r ->
  let expected := Spec.expected_signature secretKey ts r rawBody in
  let isValid := jsstring_eqb expected (toUpperCase received) in
  verifyResponseSignature secretKey (JStr received) (JStr ts) rid rawBody =
    (verification_log (JStr ts) rid expected (toUpperCase received) isValid, inr isValid) /\
  length expected = 64%nat /\
  forallb is_upper_hex expected = true.
Proof.
  intros H expected isValid. subst expected isValid.
  destruct (expected_signature_upper_hex secretKey ts r rawBody) as [E [L U]].
  rewrite (verifyResponseSignature_eq _ _ _ _ _ _ H), E.
  split; [reflexivity | split; assumption].
Qed.

Lemma verifier_expected_signature_witness :
  ToString (JNum 7) = Some (js "7") /\
  outcome (verifyResponseSignature (js "Password123") (JStr (js "00")) (JStr (js "20251103170005"))
             (JNum 7) Fixture.doc7) =
    inr (jsstring_eqb
           (Spec.expected_signature (js "Password123") (js "20251103170005") (js "7") Fixture.doc7)
           (toUpperCase (js "00"))).
Proof.
  split; [reflexivity|].
  exact (f_equal snd (proj1 (verifier_expected_signature (js "Password123") (js "00")
                 (js "20251103170005") (JNum 7) (js "7") Fixture.doc7 eq_refl))).
Defined.

Example expected_signature_known_answer :
  Spec.expected_signature (js "Password123") (js "20251103170005") (js "7") Fixture.doc7 =
  js "2A2AB8447CECA2020C14178A61F176DB52BE0CAB470893713BA1BA7B094472C2".
Proof. vm_compute. reflexivity. Qed.

(** C4.  A signature made by signing timestamp ++ requestId ++ body with the
    secret key verifies as valid against the same components. *)
Theorem verifier_round_trip (secretKey ts : jsstring) (rid : jsvalue) (r rawBody : jsstring) :
  ToString rid = Some r ->
  outcome (verifyResponseSignature secretKey
             (JStr (generateSignature secretKey (ts ++ r ++ rawBody)))
             (JStr ts) rid rawBody) = inr true.
Proof.
  intros H. rewrite (verifyResponseSignature_eq _ _ _ _ _ _ H).
  unfold outcome. cbn [snd]. rewrite jsstring_eqb_refl. reflexivity.
Qed.

Lemma verifier_round_trip_witness :
  ToString (JNum 29973496) = Some (js "29973496") /\
  outcome (verifyResponseSignature (js "Password123")
             (JStr (generateSignature (js "Password123")
                      (js "20251103170005" ++ js "29973496" ++ Fixture.doc7)))
             (JStr (js "20251103170005")) (JNum 29973496) Fixture.doc7) = inr true.
Proof.
  split; [reflexivity|].
  exact (verifier_round_trip (js "Password123") (js "20251103170005") (JNum 29973496)
           (js "29973496") Fixture.doc7 eq_refl).
Defined.

(** ** Letter case *)

(** Settles each comparison of the goal whose answer follows from the
    hypotheses by linear arithmetic. *)
Ltac settle_tests :=
  repeat match goal with
         | |- context [?a <=? ?b] =>
             first [ rewrite (proj2 (Z.leb_le a b)) by lia
                   | rewrite (proj2 (Z.leb_gt a b)) by lia ]
         | |- context [?a =? ?b] =>
             first [ rewrite (proj2 (Z.eqb_eq a b)) by lia
                   | rewrite (proj2 (Z.eqb_neq a b)) by lia ]
         end.

Lemma upper_unit_case_pair (lo up : Z) : case_pair lo up -> upper_unit lo = upper_unit up.
Proof.
  intros [[R | [R N]] ->]; unfold upper_unit; settle_tests; reflexivity.
Qed.

Lemma toUpperCase_case_variant (s s' : jsstring) :
  case_variant s s' -> toUpperCase s = toUpperCase s'.
Proof.
  induction 1 as [|a b s s' Hab _ IH]; [reflexivity|].
  rewrite !toUpperCase_cons, IH. f_equal.
  destruct Hab as [-> | [P | P]];
    [reflexivity | apply upper_unit_case_pair, P | symmetry; apply upper_unit_case_pair, P].
Qed.

Lemma case_pairb_sound (lo up : Z) : case_pairb lo up = true -> case_pair lo up.
Proof.
  unfold case_pairb, case_pair. intros H.
  apply andb_true_iff in H as [R E]. apply Z.eqb_eq in E. split; [|exact E].
  apply orb_true_iff in R as [R | R].
  - apply andb_true_iff in R as [A B]. left. split; apply Z.leb_le; assumption.
  - apply andb_true_iff in R as [R N]. apply andb_true_iff in R as [A B].
    right. split; [split; apply Z.leb_le; assumption|].
    intros ->. discriminate.
Qed.

Lemma case_variantb_sound (a b : jsstring) : case_variantb a b = true -> case_variant a b.
Proof.
  revert b; induction a as [|x a IH]; intros [|y b] H; try discriminate; [constructor|].
  cbn [case_variantb] in H. apply andb_true_iff in H as [Hxy Hab].
  constructor; [|apply IH, Hab].
  apply orb_true_iff in Hxy as [Hxy | Hxy];
    [apply orb_true_iff in Hxy as [Hxy | Hxy] |].
  - left. apply Z.eqb_eq, Hxy.
  - right; left. apply case_pairb_sound, Hxy.
  - right; right. apply case_pairb_sound, Hxy.
Qed.

(** C6.  The verifier does not see the letter case of the received
    signature: two received strings that differ only in case give the same
    result (and the same console output), so a correct signature verifies
    as valid in lower, upper or mixed case. *)
Theorem verifier_case_insensitive (secretKey ts : jsstring) (rid : jsvalue)
    (rawBody s s' : jsstring) :
  case_variant s s' ->
  verifyResponseSignature secretKey (JStr s) (JStr ts) rid rawBody =
    verifyResponseSignature secretKey (JStr s') (JStr ts) rid rawBody /\
  (forall r, ToString rid = Some r ->
             s' = generateSignature secretKey (ts ++ r ++ rawBody) ->
             outcome (verifyResponseSignature secretKey (JStr s) (JStr ts) rid rawBody)
             = inr true).
Proof.
  intros V. split.
  - unfold verifyResponseSignature, template. cbn [ToString bind ret app].
    destruct (ToString rid) as [r|]; [|reflexivity].
    cbn [bind ret app string_method]. rewrite (toUpperCase_case_variant _ _ V). reflexivity.
  - intros r H ->. rewrite (verifyResponseSignature_eq _ _ _ _ _ _ H).
    rewrite (toUpperCase_case_variant _ _ V).
    unfold outcome. cbn [snd]. rewrite jsstring_eqb_refl. reflexivity.
Qed.

Lemma verifier_case_insensitive_witness :
  let correct := generateSignature (js "Password123")
                   (js "20251103170005" ++ js "7" ++ Fixture.doc7) in
  let mixed := js "2a2Ab8447CeCa2020c14178A61f176dB52Be0cAb470893713bA1bA7b094472C2" in
  ToString (JNum 7) = Some (js "7") /\
  case_variant mixed correct /\
  outcome (verifyResponseSignature (js "Password123") (JStr mixed)
             (JStr (js "20251103170005")) (JNum 7) Fixture.doc7) = inr true.
Proof.
  intros correct mixed.
  assert (V : case_variant mixed correct)
    by (apply case_variantb_sound; vm_compute; reflexivity).
  split; [reflexivity|]. split; [exact V|].
  exact (proj2 (verifier_case_insensitive (js "Password123") (js "20251103170005") (JNum 7)
                  Fixture.doc7 mixed correct V) (js "7") eq_refl eq_refl).
Defined.

(** ** The route: from the request to the check of the response *)

Lemma truthy_falsy (v : jsvalue) : truthy v = false <-> falsy v.
Proof.
  split.
  - destruct v as [| |[]|n|[|c s]|l|f]; cbn [truthy]; try discriminate; try constructor.
    destruct (Z.eqb_spec n 0) as [->|]; [constructor | discriminate].
  - destruct 1; reflexivity.
Qed.

Section RouteFacts.

Variable JSON_parse : jsstring -> jsstring + jsvalue.
Variable URL_valid : jsstring -> bool.
Variable fault_message : fault -> jsstring.

(** The route up to its call, for a request with a card number and a
    configuration with a well-formed address. *)
Lemma tokenize_until_call (CONFIG : config) (w : world)
    (fields : list (jsstring * jsvalue)) (pan : jsstring) :
  lookup (js "cardPan") fields = Some (JStr pan) ->
  pan <> [] ->
  URL_valid (TOKEN_SERVICE_URL CONFIG) = true ->
  tokenize JSON_parse URL_valid CONFIG w (JObj fields) =
    bind (request_log CONFIG w pan ++ [HttpGet (the_request CONFIG w pan)],
          match network w (the_request CONFIG w pan) with
          | inl (m, resp) => inl (AxiosError m resp)
          | inr response => inr response
          end)
      (fun response =>
         bind (parse JSON_parse (latin1_decode (data response)))
           (fun parsed =>
              (response_log response parsed ++
               trace (check_response CONFIG response (latin1_decode (data response)) parsed),
               outcome (check_response CONFIG response (latin1_decode (data response)) parsed)))).
Proof.
  intros Hpan Hne Hurl.
  unfold tokenize. cbn [get_prop bind ret]. rewrite Hpan.
  destruct pan as [|c pan']; [congruence|].
  cbn [truthy negb app]. unfold new_URL. rewrite Hurl.
  cbn [bind ret console_log emit string_method app].
  unfold axios_get. cbn [bind emit app].
  unfold the_request, append. cbn [href searchParams app].
  destruct (network w _) as [[m resp]|response]; [reflexivity|].
  cbn [bind ret app]. unfold parse.
  destruct (JSON_parse _) as [m|parsed]; [reflexivity|].
  cbn [bind ret console_log emit app throw].
  destruct (check_response _ _ _ _) as [tr r]. reflexivity.
Qed.

Lemma generate_token_reaches_check (CONFIG : config) (w : world)
    (fields : list (jsstring * jsvalue)) (pan : jsstring)
    (response : axios_response) (parsed : jsvalue) (tr : list event) (answer : reply) :
  lookup (js "cardPan") fields = Some (JStr pan) ->
  pan <> [] ->
  URL_valid (TOKEN_SERVICE_URL CONFIG) = true ->
  network w (the_request CONFIG w pan) = inr response ->
  JSON_parse (latin1_decode (data response)) = inr parsed ->
  check_response CONFIG response (latin1_decode (data response)) parsed = (tr, inr answer) ->
  generate_token JSON_parse URL_valid fault_message CONFIG w (JObj fields) =
    (request_log CONFIG w pan ++ [HttpGet (the_request CONFIG w pan)] ++
     response_log response parsed ++ tr, inr answer).
Proof.
  intros Hpan Hne Hurl Hnet Hparse Hcheck. unfold generate_token.
  rewrite (tokenize_until_call _ _ _ _ Hpan Hne Hurl), Hnet.
  cbn [bind]. unfold parse. rewrite Hparse. cbn [bind ret]. rewrite Hcheck.
  cbn [app trace outcome fst snd try_catch].
  rewrite <- !app_assoc. reflexivity.
Qed.

End RouteFacts.

(** ** The check of the response *)

Lemma check_response_skipped (CONFIG : config) (response : axios_response)
    (rawBody : jsstring) (parsed rid : jsvalue) :
  get_prop CannotReadProperty parsed (js "TOKEN_REQID") = ret rid ->
  falsy (header "x-signature" (headers response)) \/
  falsy (header "x-timestamp" (headers response)) \/
  falsy rid ->
  check_response CONFIG response rawBody parsed = ([skip_warning], inr (success_reply parsed)).
Proof.
  intros Hrid F. unfold check_response. rewrite Hrid.
  assert (G : truthy (header "x-signature" (headers response)) &&
              truthy (header "x-timestamp" (headers response)) && truthy rid = false).
  { destruct F as [F | [F | F]]; apply truthy_falsy in F; rewrite F;
      rewrite ?andb_false_r; reflexivity. }
  cbn [bind ret app]. rewrite G. reflexivity.
Qed.

Lemma check_response_verified (CONFIG : config) (response : axios_response)
    (rawBody : jsstring) (parsed rid : jsvalue) (sig ts r : jsstring) :
  get_prop CannotReadProperty parsed (js "TOKEN_REQID") = ret rid ->
  header "x-signature" (headers response) = JStr sig ->
  header "x-timestamp" (headers response) = JStr ts ->
  sig <> [] -> ts <> [] -> truthy rid = true ->
  ToString rid = Some r ->
  let expected := toUpperCase (generateSignature (SECRET_KEY CONFIG) (ts ++ r ++ trim rawBody)) in
  let isValid := jsstring_eqb expected (toUpperCase sig) in
  check_response CONFIG response rawBody parsed =
    (verification_log (JStr ts) rid expected (toUpperCase sig) isValid ++
     [if isValid then verified_log else failure_error],
     inr (if isValid then success_reply parsed
          else failure_reply (JStr sig) expected (JStr ts) rid parsed)).
Proof.
  intros Hrid Hsig Hts Hs Ht Hr HS expected isValid.
  unfold check_response. rewrite Hrid, Hsig, Hts.
  destruct sig as [|c sig']; [congruence|]. destruct ts as [|d ts']; [congruence|].
  cbn [bind ret app truthy andb]. rewrite Hr.
  rewrite (verifyResponseSignature_eq _ _ _ _ _ _ HS).
  fold expected. fold isValid.
  destruct isValid; cbn [negb bind ret app console_log console_error emit].
  - reflexivity.
  - unfold template. rewrite HS. reflexivity.
Qed.

(** ** Calls to the token service *)

Lemma sent_app (a b : list event) : sent (a ++ b) = sent a ++ sent b.
Proof. apply flat_map_app. Qed.

Lemma silent_bind {A B} (m : M A) (k : A -> M B) :
  silent m -> (forall a, silent (k a)) -> silent (bind m k).
Proof.
  unfold silent, trace, bind. destruct m as [tr [e|a]]; cbn [fst]; intros Hm Hk; [exact Hm|].
  specialize (Hk a). destruct (k a) as [tr' r]. cbn [fst] in *.
  rewrite sent_app, Hm, Hk. reflexivity.
Qed.

Lemma silent_template (v : jsvalue) : silent (template v).
Proof. unfold template. destruct (ToString v); reflexivity. Qed.

Lemma silent_get_prop (f : fault) (v : jsvalue) (key : jsstring) : silent (get_prop f v key).
Proof. destruct v; reflexivity. Qed.

Lemma silent_string_method (v : jsvalue) : silent (string_method v).
Proof. destruct v; reflexivity. Qed.

(** Breaks a computation into its steps, none of which calls the service. *)
Ltac silence :=
  repeat first
    [ apply silent_template | apply silent_get_prop | apply silent_string_method
    | reflexivity
    | apply silent_bind; [|intros]
    | match goal with
      | |- silent (if ?b then _ else _) => destruct b
      | |- silent (match ?x with _ => _ end) => destruct x
      end ].

Lemma silent_verifyResponseSignature (k : jsstring) (sig ts rid : jsvalue) (rawBody : jsstring) :
  silent (verifyResponseSignature k sig ts rid rawBody).
Proof. unfold verifyResponseSignature. silence. Qed.

Lemma silent_check_response (CONFIG : config) (response : axios_response)
    (rawBody : jsstring) (parsed : jsvalue) :
  silent (check_response CONFIG response rawBody parsed).
Proof.
  unfold check_response.
  apply silent_bind; [apply silent_get_prop | intros rid].
  apply silent_bind; [| intros [answer|]; reflexivity].
  destruct (_ && _); [| reflexivity].
  apply silent_bind; [apply silent_verifyResponseSignature | intros isValid].
  destruct isValid; cbn [negb]; silence.
Qed.

Lemma silent_on_error (fault_message : fault -> jsstring) (e : exn) :
  silent (on_error fault_message e).
Proof. unfold on_error. destruct (error_response e) as [[st d]|]; reflexivity. Qed.

Lemma sent_request_log (CONFIG : config) (w : world) (pan : jsstring) :
  sent (request_log CONFIG w pan) = [].
Proof. reflexivity. Qed.

Section Calls.

Variable JSON_parse : jsstring -> jsstring + jsvalue.
Variable URL_valid : jsstring -> bool.
Variable fault_message : fault -> jsstring.

(** The route logs the request, makes one call, and makes no other. *)
Lemma generate_token_trace (CONFIG : config) (w : world)
    (fields : list (jsstring * jsvalue)) (pan : jsstring) :
  lookup (js "cardPan") fields = Some (JStr pan) ->
  pan <> [] ->
  URL_valid (TOKEN_SERVICE_URL CONFIG) = true ->
  exists rest r,
    generate_token JSON_parse URL_valid fault_message CONFIG w (JObj fields) =
      (request_log CONFIG w pan ++ [HttpGet (the_request CONFIG w pan)] ++ rest, r) /\
    sent rest = [].
Proof.
  intros Hpan Hne Hurl. unfold generate_token.
  rewrite (tokenize_until_call JSON_parse URL_valid _ _ _ _ Hpan Hne Hurl).
  assert (O : forall e, exists tr r, on_error fault_message e = (tr, r) /\ sent tr = []).
  { intros e. pose proof (silent_on_error fault_message e) as O.
    destruct (on_error fault_message e) as [tr r]. eauto. }
  destruct (network w _) as [[m resp]|response].
  - cbn [bind try_catch]. destruct (O (AxiosError m resp)) as [tr [r [-> S]]].
    exists tr, r. rewrite <- app_assoc. split; [reflexivity | exact S].
  - cbn [bind]. unfold parse. destruct (JSON_parse _) as [m|parsed].
    + cbn [bind throw app try_catch]. destruct (O (SyntaxError m)) as [tr [r [-> S]]].
      exists tr, r. rewrite <- !app_assoc. split; [reflexivity | exact S].
    + cbn [bind ret app].
      pose proof (silent_check_response CONFIG response
                    (latin1_decode (data response)) parsed) as C.
      unfold silent, trace, outcome in *.
      destruct (check_response _ _ _ _) as [tr [e|answer]]; cbn [fst snd try_catch] in *.
      * destruct (O e) as [tr' [r [-> S]]].
        exists (response_log response parsed ++ tr ++ tr'), r.
        rewrite <- !app_assoc. split; [reflexivity|].
        rewrite !sent_app, C, S. reflexivity.
      * exists (response_log response parsed ++ tr), (inr answer).
        rewrite <- !app_assoc. split; [reflexivity|].
        rewrite !sent_app, C. reflexivity.
Qed.

End Calls.

(** C5.  For every tokenization attempt the message signed is
    timestamp ++ nonce ++ merchantId, in this order and with nothing in
    between, and the X-SIGNATURE header of the one call made is the keyed
    hash of that message under the secret key in lower-case hexadecimal. *)
Theorem request_signature_sent
    (JSON_parse : jsstring -> jsstring + jsvalue) (URL_valid : jsstring -> bool)
    (fault_message : fault -> jsstring)
    (CONFIG : config) (w : world) (fields : list (jsstring * jsvalue)) (pan : jsstring) :
  lookup (js "cardPan") fields = Some (JStr pan) ->
  pan <> [] ->
  URL_valid (TOKEN_SERVICE_URL CONFIG) = true ->
  let timestamp := generateTimestamp (clock w) in
  let nonce := generateUniqueId (randomBytes w) in
  let signature :=
    Spec.request_signature (SECRET_KEY CONFIG) timestamp nonce (SITE_ID CONFIG) in
  sent (trace (generate_token JSON_parse URL_valid fault_message CONFIG w (JObj fields))) =
    [ mkOutbound (out_url (the_request CONFIG w pan))
        [ (js "X-SIGNATURE", signature); (js "X-TIMESTAMP", timestamp) ] ] /\
  In (Console LOG [str "Message to Sign:"; AVal (JStr (timestamp ++ nonce ++ SITE_ID CONFIG))])
     (trace (generate_token JSON_parse URL_valid fault_message CONFIG w (JObj fields))) /\
  length signature = 64%nat /\
  forallb is_lower_hex signature = true.
Proof.
  intros Hpan Hne Hurl timestamp nonce signature.
  destruct (generateSignature_lower_hex (SECRET_KEY CONFIG)
              (timestamp ++ nonce ++ SITE_ID CONFIG)) as [E [L H]].
  fold (Spec.request_signature (SECRET_KEY CONFIG) timestamp nonce (SITE_ID CONFIG)) in E.
  fold signature in E. rewrite <- E.
  destruct (generate_token_trace JSON_parse URL_valid fault_message CONFIG w fields pan
              Hpan Hne Hurl) as [rest [r [T S]]].
  rewrite T. unfold trace. cbn [fst].
  split; [| split; [| split; assumption]].
  - rewrite !sent_app, sent_request_log, S. reflexivity.
  - apply in_or_app. left. unfold request_log. cbn [In]. tauto.
Qed.

Lemma request_signature_sent_witness :
  let w := Fixture.answering (Fixture.unsigned_response Fixture.doc7) in
  let timestamp := generateTimestamp (clock w) in
  let nonce := generateUniqueId (randomBytes w) in
  let signature := Spec.request_signature (js "Password123") timestamp nonce (js "9201") in
  sent (trace (Fixture.route w)) =
    [ mkOutbound (out_url (the_request default_config w (js "409159111111111")))
        [ (js "X-SIGNATURE", signature); (js "X-TIMESTAMP", timestamp) ] ].
Proof.
  intros w timestamp nonce signature.
  refine (proj1 (request_signature_sent Fixture.JSON_parse Fixture.URL_valid
                   Fixture.fault_message default_config w Fixture.fields
                   (js "409159111111111") eq_refl _ eq_refl)).
  discriminate.
Defined.

Example request_signature_known_answer :
  Spec.request_signature (js "Password123") (js "20251103170000")
    (js "a0a1a2a3a4a5a6a7a8a9aaabacadaeaf") (js "9201") =
  js "0e2f694f2c9a5507a6c40261e0c25b704e5d8577fef78e4e1535ee48e4a1d2e0".
Proof. vm_compute. reflexivity. Qed.

(** ** Verification failure *)

Lemma inr_eq {A B : Type} (a b : B) : @inr A B a = inr b -> a = b.
Proof. intros H. congruence. Qed.

(** C8.  When the verifier rejects the signature of a response, the route
    does not throw: it answers 200 with success false, the error message,
    the received signature, the expected signature in upper-case
    hexadecimal, the server timestamp, the token request id and the parsed
    response. *)
Theorem verification_failure_reply
    (JSON_parse : jsstring -> jsstring + jsvalue) (URL_valid : jsstring -> bool)
    (fault_message : fault -> jsstring)
    (CONFIG : config) (w : world) (fields : list (jsstring * jsvalue)) (pan : jsstring)
    (response : axios_response) (parsed rid : jsvalue) (sig ts r : jsstring) :
  lookup (js "cardPan") fields = Some (JStr pan) ->
  pan <> [] ->
  URL_valid (TOKEN_SERVICE_URL CONFIG) = true ->
  network w (the_request CONFIG w pan) = inr response ->
  JSON_parse (latin1_decode (data response)) = inr parsed ->
  get_prop CannotReadProperty parsed (js "TOKEN_REQID") = ret rid ->
  header "x-signature" (headers response) = JStr sig ->
  header "x-timestamp" (headers response) = JStr ts ->
  sig <> [] -> ts <> [] -> truthy rid = true ->
  ToString rid = Some r ->
  outcome (verifyResponseSignature (SECRET_KEY CONFIG) (JStr sig) (JStr ts) rid
             (trim (latin1_decode (data response)))) = inr false ->
  let expected :=
    Spec.expected_signature (SECRET_KEY CONFIG) ts r (trim (latin1_decode (data response))) in
  outcome (generate_token JSON_parse URL_valid fault_message CONFIG w (JObj fields)) =
    inr (mkReply 200
      [ (js "success", RVal (JBool false));
        (js "error", RVal (JStr (js "Response signature verification failed")));
        (js "signatureVerified", RVal (JBool false));
        (js "receivedSignature", RVal (JStr sig));
        (js "expectedSignature", RVal (JStr expected));
        (js "serverTimestamp", RVal (JStr ts));
        (js "tokenRequestId", RVal rid);
        (js "responseData", RVal parsed) ]) /\
  forallb is_upper_hex expected = true /\
  In failure_error
     (trace (generate_token JSON_parse URL_valid fault_message CONFIG w (JObj fields))).
Proof.
  intros Hpan Hne Hurl Hnet Hparse Hrid Hsig Hts Hs Ht Hr HS Hv expected.
  destruct (expected_signature_upper_hex (SECRET_KEY CONFIG) ts r
              (trim (latin1_decode (data response)))) as [E [_ U]].
  fold expected in E, U.
  rewrite (verifyResponseSignature_eq _ _ _ _ _ _ HS) in Hv.
  unfold outcome in Hv. cbn [snd] in Hv. apply inr_eq in Hv.
  pose proof (check_response_verified CONFIG response (latin1_decode (data response))
                parsed rid sig ts r Hrid Hsig Hts Hs Ht Hr HS) as C.
  cbv zeta in C. rewrite Hv, E in C.
  rewrite (generate_token_reaches_check JSON_parse URL_valid fault_message CONFIG w fields pan
             response parsed _ _ Hpan Hne Hurl Hnet Hparse C).
  split; [reflexivity | split; [exact U|]].
  unfold trace. cbn [fst]. rewrite !in_app_iff. cbn [In]. tauto.
Qed.

Lemma verification_failure_reply_witness :
  let payload := Fixture.doc7 ++ [10] in
  let w := Fixture.answering (Fixture.forged_response payload) in
  outcome (Fixture.route w) =
    inr (failure_reply (JStr (repeat 48 64))
           (Spec.expected_signature (js "Password123") (js "20251103170005") (js "7")
              (trim (latin1_decode (Fixture.wire payload))))
           (JStr (js "20251103170005")) (JNum 7) Fixture.parsed7).
Proof.
  intros payload w.
  assert (Hparse : Fixture.JSON_parse
                     (latin1_decode (data (Fixture.forged_response payload))) =
                   inr Fixture.parsed7) by (vm_compute; reflexivity).
  assert (Hsig : header "x-signature" (headers (Fixture.forged_response payload)) =
                 JStr (repeat 48 64)) by (vm_compute; reflexivity).
  assert (Hts : header "x-timestamp" (headers (Fixture.forged_response payload)) =
                JStr (js "20251103170005")) by (vm_compute; reflexivity).
  assert (Hv : outcome (verifyResponseSignature (SECRET_KEY default_config)
                  (JStr (repeat 48 64)) (JStr (js "20251103170005")) (JNum 7)
                  (trim (latin1_decode (data (Fixture.forged_response payload))))) = inr false)
    by (vm_compute; reflexivity).
  refine (proj1 (verification_failure_reply Fixture.JSON_parse Fixture.URL_valid
            Fixture.fault_message default_config w Fixture.fields (js "409159111111111")
            (Fixture.forged_response payload) Fixture.parsed7 (JNum 7)
            (repeat 48 64) (js "20251103170005") (js "7")
            eq_refl _ eq_refl eq_refl Hparse eq_refl Hsig Hts _ _ eq_refl eq_refl Hv));
    discriminate.
Defined.

(** ** Skipped verification *)

(** C10.  A falsy signature header, timestamp header or TOKEN_REQID is
    treated as an absent one: with the number 0 as request id, or with an
    empty header, the route logs the same warning, verifies nothing and
    gives the same answer as when the field is missing ([undefined] is one
    of the falsy values). *)
Theorem falsy_fields_skip_verification
    (JSON_parse : jsstring -> jsstring + jsvalue) (URL_valid : jsstring -> bool)
    (fault_message : fault -> jsstring)
    (CONFIG : config) (w : world) (fields : list (jsstring * jsvalue)) (pan : jsstring)
    (response : axios_response) (parsed rid : jsvalue) :
  lookup (js "cardPan") fields = Some (JStr pan) ->
  pan <> [] ->
  URL_valid (TOKEN_SERVICE_URL CONFIG) = true ->
  network w (the_request CONFIG w pan) = inr response ->
  JSON_parse (latin1_decode (data response)) = inr parsed ->
  get_prop CannotReadProperty parsed (js "TOKEN_REQID") = ret rid ->
  falsy (header "x-signature" (headers response)) \/
  falsy (header "x-timestamp" (headers response)) \/
  falsy rid ->
  generate_token JSON_parse URL_valid fault_message CONFIG w (JObj fields) =
    (request_log CONFIG w pan ++ [HttpGet (the_request CONFIG w pan)] ++
     response_log response parsed ++ [skip_warning],
     inr (success_reply parsed)).
Proof.
  intros Hpan Hne Hurl Hnet Hparse Hrid F.
  apply (generate_token_reaches_check JSON_parse URL_valid fault_message CONFIG w fields pan
           response parsed _ _ Hpan Hne Hurl Hnet Hparse).
  apply (check_response_skipped CONFIG response _ parsed rid Hrid F).
Qed.

Lemma falsy_fields_skip_verification_witness :
  let response := Fixture.signed_response (js "0") Fixture.doc0 Fixture.doc0 in
  let w := Fixture.answering response in
  header "x-signature" (headers response) <> JUndefined /\
  header "x-timestamp" (headers response) <> JUndefined /\
  Fixture.route w =
    (request_log default_config w (js "409159111111111") ++
     [HttpGet (the_request default_config w (js "409159111111111"))] ++
     response_log response Fixture.parsed0 ++ [skip_warning],
     inr (success_reply Fixture.parsed0)).
Proof.
  intros response w.
  assert (Hparse : Fixture.JSON_parse (latin1_decode (data response)) = inr Fixture.parsed0)
    by (vm_compute; reflexivity).
  split; [vm_compute; discriminate|]. split; [vm_compute; discriminate|].
  refine (falsy_fields_skip_verification Fixture.JSON_parse Fixture.URL_valid
            Fixture.fault_message default_config w Fixture.fields (js "409159111111111")
            response Fixture.parsed0 (JNum 0)
            eq_refl _ eq_refl eq_refl Hparse eq_refl
            (or_intror (or_intror falsy_zero))).
  discriminate.
Defined.

Example empty_signature_header_is_skipped :
  let response := mkResponse 200 [ ("x-timestamp"%string, Fixture.stamp);
                                   ("x-signature"%string, EmptyString) ]
                             (Fixture.wire Fixture.doc7) in
  falsy (header "x-signature" (headers response)) /\
  outcome (Fixture.route (Fixture.answering response)) = inr (success_reply Fixture.parsed7).
Proof. split; [constructor | vm_compute; reflexivity]. Qed.

(** The route on a response that carries all three fields. *)
Lemma generate_token_checked
    (JSON_parse : jsstring -> jsstring + jsvalue) (URL_valid : jsstring -> bool)
    (fault_message : fault -> jsstring)
    (CONFIG : config) (w : world) (fields : list (jsstring * jsvalue)) (pan : jsstring)
    (response : axios_response) (parsed rid : jsvalue) (sig ts r : jsstring) (isValid : bool) :
  lookup (js "cardPan") fields = Some (JStr pan) ->
  pan <> [] ->
  URL_valid (TOKEN_SERVICE_URL CONFIG) = true ->
  network w (the_request CONFIG w pan) = inr response ->
  JSON_parse (latin1_decode (data response)) = inr parsed ->
  get_prop CannotReadProperty parsed (js "TOKEN_REQID") = ret rid ->
  header "x-signature" (headers response) = JStr sig ->
  header "x-timestamp" (headers response) = JStr ts ->
  sig <> [] -> ts <> [] -> truthy rid = true ->
  ToString rid = Some r ->
  jsstring_eqb (toUpperCase (generateSignature (SECRET_KEY CONFIG)
                               (ts ++ r ++ trim (latin1_decode (data response)))))
               (toUpperCase sig) = isValid ->
  generate_token JSON_parse URL_valid fault_message CONFIG w (JObj fields) =
    (request_log CONFIG w pan ++ [HttpGet (the_request CONFIG w pan)] ++
     response_log response parsed ++
     verification_log (JStr ts) rid
       (toUpperCase (generateSignature (SECRET_KEY CONFIG)
                       (ts ++ r ++ trim (latin1_decode (data response)))))
       (toUpperCase sig) isValid ++
     [if isValid then verified_log else failure_error],
     inr (if isValid then success_reply parsed
          else failure_reply (JStr sig)
                 (toUpperCase (generateSignature (SECRET_KEY CONFIG)
                                 (ts ++ r ++ trim (latin1_decode (data response)))))
                 (JStr ts) rid parsed)).
Proof.
  intros Hpan Hne Hurl Hnet Hparse Hrid Hsig Hts Hs Ht Hr HS Hv.
  pose proof (check_response_verified CONFIG response (latin1_decode (data response))
                parsed rid sig ts r Hrid Hsig Hts Hs Ht Hr HS) as C.
  cbv zeta in C. rewrite Hv in C.
  exact (generate_token_reaches_check JSON_parse URL_valid fault_message CONFIG w fields pan
           response parsed _ _ Hpan Hne Hurl Hnet Hparse C).
Qed.

(** C1: the code at a response without the signature header.  The route
    logs that it skips verification and then gives the very answer it gives
    for a response whose signature it has verified, signatureVerified true
    included; the caller cannot tell the two apart. *)
Theorem missing_signature_reported_verified :
  let payload := Fixture.doc7 ++ [10] in
  let unsigned := Fixture.answering (Fixture.unsigned_response payload) in
  let signed := Fixture.answering (Fixture.signed_response (js "7") Fixture.doc7 payload) in
  header "x-signature" (headers (Fixture.unsigned_response payload)) = JUndefined /\
  In skip_warning (trace (Fixture.route unsigned)) /\
  outcome (Fixture.route unsigned) =
    inr (mkReply 200 [ (js "success", RVal (JBool true));
                       (js "signatureVerified", RVal (JBool true));
                       (js "token", RVal Fixture.parsed7) ]) /\
  In verified_log (trace (Fixture.route signed)) /\
  outcome (Fixture.route signed) = outcome (Fixture.route unsigned).
Proof.
  intros payload unsigned signed.
  assert (P1 : Fixture.JSON_parse
                 (latin1_decode (data (Fixture.unsigned_response payload))) =
               inr Fixture.parsed7) by (vm_compute; reflexivity).
  assert (P2 : Fixture.JSON_parse
                 (latin1_decode (data (Fixture.signed_response (js "7") Fixture.doc7 payload))) =
               inr Fixture.parsed7) by (vm_compute; reflexivity).
  assert (N : js "409159111111111" <> []) by discriminate.
  pose proof (falsy_undefined) as F.
  assert (U := generate_token_reaches_check Fixture.JSON_parse Fixture.URL_valid
             Fixture.fault_message default_config unsigned Fixture.fields
             (js "409159111111111") (Fixture.unsigned_response payload) Fixture.parsed7
             _ _ eq_refl N eq_refl eq_refl P1
             (check_response_skipped default_config (Fixture.unsigned_response payload)
                _ Fixture.parsed7 (JNum 7) eq_refl (or_introl F))).
  assert (V : jsstring_eqb
                (toUpperCase (generateSignature (SECRET_KEY default_config)
                   (latin1_decode Fixture.stamp ++ js "7" ++
                    trim (latin1_decode
                            (data (Fixture.signed_response (js "7") Fixture.doc7 payload))))))
                (toUpperCase (latin1_decode
                                (Fixture.wire (Fixture.service_signature (js "7") Fixture.doc7))))
              = true) by (vm_compute; reflexivity).
  assert (S := generate_token_checked Fixture.JSON_parse Fixture.URL_valid
             Fixture.fault_message default_config signed Fixture.fields
             (js "409159111111111") (Fixture.signed_response (js "7") Fixture.doc7 payload)
             Fixture.parsed7 (JNum 7) _ _ (js "7") true
             eq_refl N eq_refl eq_refl P2 eq_refl eq_refl eq_refl
             ltac:(vm_compute; discriminate) ltac:(discriminate) eq_refl eq_refl V).
  unfold Fixture.route, Fixture.request. rewrite U, S. unfold trace, outcome. cbn [fst snd].
  split; [reflexivity|].
  split; [do 3 (apply in_or_app; right); left; reflexivity|].
  split; [reflexivity|].
  split; [do 4 (apply in_or_app; right); left; reflexivity | reflexivity].
Qed.

(** ** The bytes that are verified *)

Lemma trim_two_sided (s : jsstring) : trim s = trimStart (trimEnd s).
Proof. reflexivity. Qed.

Lemma trimStart_split (l : jsstring) :
  exists w, l = w ++ trimStart l /\ forallb is_whitespace w = true.
Proof.
  induction l as [|x l [w [E W]]]; [exists []; split; reflexivity|].
  cbn [trimStart]. destruct (is_whitespace x) eqn:Hx.
  - exists (x :: w). cbn [forallb app]. rewrite Hx, W. split; [congruence | reflexivity].
  - exists []. split; reflexivity.
Qed.

(** What [trimEnd] removes is white space at the end, and nothing else. *)
Lemma trimEnd_split (l : jsstring) :
  exists w, l = trimEnd l ++ w /\ forallb is_whitespace w = true.
Proof.
  destruct (trimStart_split (rev l)) as [w [E W]].
  exists (rev w). split.
  - unfold trimEnd. rewrite <- rev_app_distr, <- E, rev_involutive. reflexivity.
  - rewrite forallb_forall in *. intros x Hx. apply W, in_rev, Hx.
Qed.

Lemma trimStart_snoc (l : jsstring) (c : Z) :
  is_whitespace c = false -> trimStart (l ++ [c]) = trimStart l ++ [c].
Proof.
  intros Hc. induction l as [|x l IH]; cbn [trimStart app].
  - rewrite Hc. reflexivity.
  - destruct (is_whitespace x); [exact IH | reflexivity].
Qed.

Lemma trimEnd_cons (c : Z) (s : jsstring) :
  is_whitespace c = false -> trimEnd (c :: s) = c :: trimEnd s.
Proof.
  intros Hc. unfold trimEnd. cbn [rev].
  rewrite (trimStart_snoc _ _ Hc), rev_app_distr. reflexivity.
Qed.

(** When the body does not begin with white space, only its end is trimmed. *)
Lemma trim_without_leading_space (c : Z) (s : jsstring) :
  is_whitespace c = false -> trim (c :: s) = trimEnd (c :: s).
Proof.
  intros Hc. unfold trim. rewrite (trimEnd_cons _ _ Hc).
  cbn [trimStart]. rewrite Hc. reflexivity.
Qed.

(** C2: the code at a body that begins with white space.  [trim] removes
    the leading space as well as the trailing newline, so a response signed
    over the payload with only its trailing newline removed is rejected:
    the expected signature is computed over a body whose first byte is
    gone.  A byte above 0x7F is also changed on the way to the hash: it is
    decoded as Latin-1 and hashed as two bytes of UTF-8. *)
Theorem leading_whitespace_is_trimmed :
  let payload := 32 :: Fixture.doc7 ++ [10] in
  let response := Fixture.signed_response (js "7") (trimEnd payload) payload in
  trimEnd payload = 32 :: Fixture.doc7 /\
  trim payload = Fixture.doc7 /\
  outcome (Fixture.route (Fixture.answering response)) =
    inr (failure_reply
           (JStr (Fixture.service_signature (js "7") (32 :: Fixture.doc7)))
           (Spec.expected_signature (js "Password123") (js "20251103170005") (js "7")
              Fixture.doc7)
           (JStr (js "20251103170005")) (JNum 7) Fixture.parsed7) /\
  Fixture.service_signature (js "7") (32 :: Fixture.doc7) =
    Spec.expected_signature (js "Password123") (js "20251103170005") (js "7")
      (32 :: Fixture.doc7) /\
  utf8_encode (trim (latin1_decode (String (ascii_of_N 233) EmptyString))) = [195; 169].
Proof.
  intros payload response.
  repeat (split; [vm_compute; reflexivity|]). vm_compute; reflexivity.
Qed.

Example trailing_newline_is_trimmed :
  let payload := Fixture.doc7 ++ [13; 10] in
  trim payload = Fixture.doc7 /\
  outcome (Fixture.route (Fixture.answering
             (Fixture.signed_response (js "7") Fixture.doc7 payload))) =
    inr (success_reply Fixture.parsed7).
Proof. split; vm_compute; reflexivity. Qed.

Example inner_whitespace_is_kept :
  trim (js " a  b ") = js "a  b".
Proof. vm_compute. reflexivity. Qed.

(** ** What the outputs tell about the secret key *)

Lemma substring_prefix (s : jsstring) (n : Z) :
  0 <= n -> substring s 0 n = firstn (Z.to_nat n) s.
Proof.
  intros Hn. unfold substring, clamp.
  set (len := Z.of_nat (length s)).
  assert (L : 0 <= len) by (unfold len; lia).
  replace (Z.max 0 (Z.min 0 len)) with 0 by lia.
  replace (Z.max 0 (Z.max 0 (Z.min n len)) - Z.min 0 (Z.max 0 (Z.min n len)))
    with (Z.min n len) by lia.
  replace (Z.min 0 (Z.max 0 (Z.min n len))) with 0 by lia.
  cbn [Z.to_nat skipn].
  destruct (Z.le_ge_cases n len) as [C|C].
  - rewrite Z.min_l by exact C. reflexivity.
  - rewrite Z.min_r by exact C. unfold len. rewrite Nat2Z.id.
    rewrite firstn_all. symmetry. apply firstn_all2. lia.
Qed.

(** The banner shows three characters of the key and its length. *)
Lemma listening_key (CONFIG : config) (k1 k2 : jsstring) :
  firstn 3 k1 = firstn 3 k2 ->
  length k1 = length k2 ->
  listening (with_secret CONFIG k1) = listening (with_secret CONFIG k2).
Proof.
  intros P L. unfold listening.
  cbn [SECRET_KEY SITE_ID TOKEN_SERVICE_URL API_VERSION PORT with_secret].
  rewrite !substring_prefix by lia. change (Z.to_nat 3) with 3%nat.
  rewrite P, L. reflexivity.
Qed.

Lemma verifyResponseSignature_key (k1 k2 : jsstring) (sig ts rid : jsvalue)
    (rawBody : jsstring) :
  same_signatures k1 k2 ->
  verifyResponseSignature k1 sig ts rid rawBody = verifyResponseSignature k2 sig ts rid rawBody.
Proof.
  intros H. unfold verifyResponseSignature, template.
  destruct (ToString ts) as [t|]; [|reflexivity].
  destruct (ToString rid) as [r|]; [|reflexivity].
  cbn [bind ret app]. rewrite (H (t ++ r ++ rawBody)). reflexivity.
Qed.

Lemma check_response_key (CONFIG : config) (k1 k2 : jsstring) (response : axios_response)
    (rawBody : jsstring) (parsed : jsvalue) :
  same_signatures k1 k2 ->
  check_response (with_secret CONFIG k1) response rawBody parsed =
  check_response (with_secret CONFIG k2) response rawBody parsed.
Proof.
  intros H. unfold check_response. cbn [SECRET_KEY with_secret].
  destruct (get_prop CannotReadProperty parsed (js "TOKEN_REQID")) as [tr [e|rid]];
    cbn [bind]; [reflexivity|].
  destruct (_ && _); [|reflexivity].
  rewrite (verifyResponseSignature_key k1 k2 _ _ _ _ H).
  destruct (verifyResponseSignature k2 _ _ _ _) as [tr' [e|[]]];
    cbn [bind negb console_error emit app]; [reflexivity | reflexivity |].
  unfold template.
  destruct (ToString (header "x-timestamp" (headers response))) as [t|]; [|reflexivity].
  destruct (ToString rid) as [r|]; [|reflexivity].
  cbn [bind ret app]. rewrite (H (t ++ r ++ trim rawBody)). reflexivity.
Qed.

Lemma tokenize_key
    (JSON_parse : jsstring -> jsstring + jsvalue) (URL_valid : jsstring -> bool)
    (CONFIG : config) (k1 k2 : jsstring) (w : world) (req : jsvalue) :
  same_signatures k1 k2 ->
  tokenize JSON_parse URL_valid (with_secret CONFIG k1) w req =
  tokenize JSON_parse URL_valid (with_secret CONFIG k2) w req.
Proof.
  intros H. unfold tokenize.
  cbn [SECRET_KEY SITE_ID TOKEN_SERVICE_URL API_VERSION with_secret].
  destruct (get_prop CannotDestructure req (js "cardPan")) as [tr [e|cardPan]];
    cbn [bind]; [reflexivity|].
  destruct (negb (truthy cardPan)); [reflexivity|].
  rewrite (H (generateTimestamp (clock w) ++ generateUniqueId (randomBytes w) ++
              SITE_ID CONFIG)).
  cbn [bind console_log emit app].
  destruct (string_method cardPan) as [tr1 [e|pan]]; cbn [bind console_log emit app];
    [reflexivity|].
  destruct (new_URL URL_valid (TOKEN_SERVICE_URL CONFIG)) as [tr2 [e|url]];
    cbn [bind console_log emit app]; [reflexivity|].
  destruct (axios_get w _) as [tr3 [e|response]]; cbn [bind console_log emit app];
    [reflexivity|].
  destruct (parse JSON_parse _) as [tr4 [e|parsed]]; cbn [bind console_log emit app];
    [reflexivity|].
  rewrite (check_response_key CONFIG k1 k2 _ _ _ H). reflexivity.
Qed.

Lemma generate_token_key
    (JSON_parse : jsstring -> jsstring + jsvalue) (URL_valid : jsstring -> bool)
    (fault_message : fault -> jsstring)
    (CONFIG : config) (k1 k2 : jsstring) (w : world) (req : jsvalue) :
  same_signatures k1 k2 ->
  generate_token JSON_parse URL_valid fault_message (with_secret CONFIG k1) w req =
  generate_token JSON_parse URL_valid fault_message (with_secret CONFIG k2) w req.
Proof.
  intros H. unfold generate_token.
  rewrite (tokenize_key JSON_parse URL_valid CONFIG k1 k2 w req H). reflexivity.
Qed.

(** Keys with the same block of key bytes sign alike. *)
Lemma same_block_key (k1 k2 : jsstring) :
  HMAC.block_key (utf8_encode k1) = HMAC.block_key (utf8_encode k2) ->
  same_signatures k1 k2.
Proof.
  intros B m. unfold generateSignature, HMAC.hmac_sha256. rewrite B. reflexivity.
Qed.

(** C9, as amended.  Of the secret key, the start-up banner shows the first
    three characters and the length (one asterisk for every further
    character), and nothing more; the route's console output, its call to
    the token service and its answers, error payloads included, depend on
    the key only through the signatures made with it. *)
Theorem secret_key_disclosure :
  (forall (CONFIG : config) (k1 k2 : jsstring),
     firstn 3 k1 = firstn 3 k2 -> length k1 = length k2 ->
     listening (with_secret CONFIG k1) = listening (with_secret CONFIG k2)) /\
  (forall (JSON_parse : jsstring -> jsstring + jsvalue) (URL_valid : jsstring -> bool)
          (fault_message : fault -> jsstring)
          (CONFIG : config) (w : world) (req : jsvalue) (k1 k2 : jsstring),
     same_signatures k1 k2 ->
     generate_token JSON_parse URL_valid fault_message (with_secret CONFIG k1) w req =
     generate_token JSON_parse URL_valid fault_message (with_secret CONFIG k2) w req).
Proof.
  split.
  - intros CONFIG k1 k2 P L. apply listening_key; assumption.
  - intros JSON_parse URL_valid fault_message CONFIG w req k1 k2 H.
    apply generate_token_key, H.
Qed.

Lemma secret_key_disclosure_witness :
  let w := Fixture.answering (Fixture.forged_response Fixture.doc7) in
  js "Password123" <> js "Pasadena-CA" /\
  listening (with_secret default_config (js "Password123")) =
    listening (with_secret default_config (js "Pasadena-CA")) /\
  js "abc" <> js "abc" ++ [0] /\
  generate_token Fixture.JSON_parse Fixture.URL_valid Fixture.fault_message
    (with_secret default_config (js "abc")) w Fixture.request =
  generate_token Fixture.JSON_parse Fixture.URL_valid Fixture.fault_message
    (with_secret default_config (js "abc" ++ [0])) w Fixture.request.
Proof.
  intros w.
  split; [discriminate|].
  split; [exact (proj1 secret_key_disclosure default_config (js "Password123")
                   (js "Pasadena-CA") eq_refl eq_refl)|].
  split; [discriminate|].
  apply (proj2 secret_key_disclosure).
  apply same_block_key. vm_compute. reflexivity.
Defined.

(** C9, as stated, fails: with the default key the banner prints its first
    three characters, and a key that differs in them gives another banner. *)
Lemma banner_shows_key_prefix :
  firstn 3 (SECRET_KEY default_config) = js "Pas" /\
  In (Console LOG [AVal (JStr (js "  Secret Key:    Pas********"))])
     (trace (listening default_config)) /\
  trace (listening (with_secret default_config (js "Qassword123"))) <>
  trace (listening default_config).
Proof.
  split; [reflexivity|]. split.
  - vm_compute. do 10 right. left. reflexivity.
  - vm_compute. intros H. discriminate H.
Qed.

(** ** Other paths of the route *)

Example missing_card_pan :
  generate_token Fixture.JSON_parse Fixture.URL_valid Fixture.fault_message default_config
    (Fixture.answering (Fixture.unsigned_response Fixture.doc7)) (JObj []) =
  ([], inr (mkReply 400 [ (js "error", RVal (JStr (js "Missing required field: cardPan"))) ])).
Proof. vm_compute. reflexivity. Qed.

Example upstream_status_is_passed_on :
  let w := mkWorld Fixture.noon Fixture.entropy
             (fun _ => inl (js "Request failed with status code 503",
                            Some (503, "busy"%string))) in
  outcome (Fixture.route w) =
    inr (mkReply 503 [ (js "error", RVal (JStr (js "Token service error")));
                       (js "details", RBuffer "busy") ]).
Proof. vm_compute. reflexivity. Qed.

Example unparsable_body_is_an_internal_error :
  outcome (Fixture.route (Fixture.answering (Fixture.unsigned_response (js "<html>")))) =
    inr (mkReply 500 [ (js "error", RVal (JStr (js "Internal server error")));
                       (js "message", RVal (JStr (js "Unexpected token"))) ]).
Proof. vm_compute. reflexivity. Qed.

Example numeric_card_pan_is_an_internal_error :
  outcome (generate_token Fixture.JSON_parse Fixture.URL_valid Fixture.fault_message
             default_config (Fixture.answering (Fixture.unsigned_response Fixture.doc7))
             (JObj [ (js "cardPan", JNum 409159111111111) ])) =
    inr (mkReply 500 [ (js "error", RVal (JStr (js "Internal server error")));
                       (js "message", RVal (JStr (js "is not a function"))) ]).
Proof. vm_compute. reflexivity. Qed.

(** * Further properties of the code *)

(** ** The nonce *)

Lemma is_latin1_bytes (l : list Z) : is_latin1 l = true -> Forall is_byte l.
Proof.
  unfold is_latin1. intros H. apply Forall_forall. intros x Hx.
  rewrite forallb_forall in H. specialize (H x Hx).
  apply andb_true_iff in H as [A B]. apply Z.leb_le in A. apply Z.ltb_lt in B.
  split; assumption.
Qed.

Lemma hex_digit_injective (d e : Z) :
  0 <= d < 16 -> 0 <= e < 16 -> hex_digit d = hex_digit e -> d = e.
Proof.
  unfold hex_digit. intros Hd He.
  destruct (Z.ltb_spec d 10), (Z.ltb_spec e 10); lia.
Qed.

Lemma hex_injective (a b : bytes) :
  Forall is_byte a -> Forall is_byte b -> hex a = hex b -> a = b.
Proof.
  intros Ha. revert b. induction Ha as [|x a Hx Ha IH]; intros b Hb E.
  - destruct b; [reflexivity | discriminate E].
  - destruct Hb as [|y b Hy Hb]; [discriminate E|].
    cbn [hex] in E. injection E as E1 E2 E3.
    destruct (nibbles x Hx) as [X1 X2], (nibbles y Hy) as [Y1 Y2].
    apply hex_digit_injective in E1; [|assumption..].
    apply hex_digit_injective in E2; [|assumption..].
    f_equal; [| apply IH; assumption].
    rewrite (Z.div_mod x 16), (Z.div_mod y 16) by lia. congruence.
Qed.

(** X1.  When the random source gives sixteen bytes, the unique id is
    thirty-two lower-case hexadecimal digits. *)
Theorem generateUniqueId_format (randomBytes : nat -> bytes) :
  length (randomBytes 16%nat) = 16%nat ->
  Forall is_byte (randomBytes 16%nat) ->
  length (generateUniqueId randomBytes) = 32%nat /\
  forallb is_lower_hex (generateUniqueId randomBytes) = true.
Proof.
  intros L B. unfold generateUniqueId. split.
  - rewrite hex_length, L. reflexivity.
  - apply (hex_lower _ B).
Qed.

Lemma generateUniqueId_format_witness :
  length (generateUniqueId Fixture.entropy) = 32%nat /\
  forallb is_lower_hex (generateUniqueId Fixture.entropy) = true.
Proof.
  apply generateUniqueId_format;
    [reflexivity | apply is_latin1_bytes; vm_compute; reflexivity].
Defined.

(** X2.  Two draws of random bytes that differ give unique ids that
    differ. *)
Theorem generateUniqueId_distinct (r1 r2 : nat -> bytes) :
  Forall is_byte (r1 16%nat) ->
  Forall is_byte (r2 16%nat) ->
  r1 16%nat <> r2 16%nat ->
  generateUniqueId r1 <> generateUniqueId r2.
Proof.
  intros B1 B2 N E. apply N. apply hex_injective; assumption.
Qed.

Lemma generateUniqueId_distinct_witness :
  generateUniqueId Fixture.entropy <> generateUniqueId (fun n => repeat 0 n).
Proof.
  apply generateUniqueId_distinct;
    [ apply is_latin1_bytes; vm_compute; reflexivity
    | apply is_latin1_bytes; vm_compute; reflexivity
    | vm_compute; discriminate ].
Defined.

(** ** Keys that sign alike *)

Lemma utf8_encode_snoc_nul_bounded (n : nat) :
  forall s, (length s <= n)%nat -> utf8_encode (s ++ [0]) = utf8_encode s ++ [0].
Proof.
  induction n as [|n IH]; intros s L.
  - destruct s; [reflexivity | cbn in L; lia].
  - destruct s as [|c rest]; [reflexivity|].
    cbn [length] in L. cbn [app utf8_encode].
    destruct (c <? 0x80); [rewrite IH by lia; reflexivity|].
    destruct (c <? 0x800); [rewrite IH by lia; reflexivity|].
    destruct (is_high_surrogate c).
    + destruct rest as [|d rest']; cbn [app].
      * reflexivity.
      * cbn [length] in L.
        destruct (is_low_surrogate d).
        -- rewrite IH by lia. rewrite <- app_assoc. reflexivity.
        -- change (d :: rest' ++ [0]) with ((d :: rest') ++ [0]).
           rewrite IH by (cbn [length]; lia). rewrite <- app_assoc. reflexivity.
    + destruct (is_low_surrogate c); rewrite IH by lia; rewrite <- app_assoc; reflexivity.
Qed.

Lemma utf8_encode_snoc_nul (s : jsstring) :
  utf8_encode (s ++ [0]) = utf8_encode s ++ [0].
Proof. apply (utf8_encode_snoc_nul_bounded (length s)). lia. Qed.

Lemma block_key_snoc_nul (key : bytes) :
  (length key < 64)%nat -> HMAC.block_key (key ++ [0]) = HMAC.block_key key.
Proof.
  intros L. unfold HMAC.block_key, HMAC.block_size. cbv zeta.
  rewrite length_app. cbn [length].
  destruct (Nat.ltb_spec 64 (length key + 1)); [lia|].
  destruct (Nat.ltb_spec 64 (length key)); [lia|].
  rewrite length_app. cbn [length].
  rewrite <- app_assoc. f_equal.
  replace (64 - length key)%nat with (S (64 - (length key + 1)))%nat by lia.
  reflexivity.
Qed.

(** X3.  A secret key of fewer than sixty-four bytes and the same key
    followed by a NUL character give the same signature for every
    message. *)
Theorem generateSignature_nul_padding (secretKey message : jsstring) :
  (length (utf8_encode secretKey) < 64)%nat ->
  generateSignature (secretKey ++ [0]) message = generateSignature secretKey message.
Proof.
  intros L. unfold generateSignature, HMAC.hmac_sha256.
  rewrite utf8_encode_snoc_nul, (block_key_snoc_nul _ L). reflexivity.
Qed.

Lemma generateSignature_nul_padding_witness :
  generateSignature (js "Password123" ++ [0]) (js "20251103170000") =
  generateSignature (js "Password123") (js "20251103170000").
Proof.
  apply generateSignature_nul_padding. apply Nat.ltb_lt. vm_compute. reflexivity.
Defined.

(** ** What the verifier accepts *)

Lemma upper_unit_lower_hex (x : Z) :
  is_lower_hex x = true ->
  exists u, upper_unit x = [u] /\ is_upper_hex u = true /\ (x = u \/ case_pair x u).
Proof.
  unfold is_lower_hex, is_digit. intros H.
  apply orb_true_iff in H as [H | H]; apply andb_true_iff in H as [A B];
    apply Z.leb_le in A, B.
  - exists x. unfold upper_unit, is_upper_hex, is_digit. settle_tests. cbn [andb orb negb].
    split; [reflexivity | split; [reflexivity | left; reflexivity]].
  - exists (x - 32). unfold upper_unit, is_upper_hex, is_digit, case_pair.
    settle_tests. cbn [andb orb negb].
    split; [reflexivity | split; [reflexivity | right; split; [left; lia | reflexivity]]].
Qed.

Lemma upper_unit_hits_hex (c u : Z) (rest : jsstring) :
  0 <= c < 256 -> is_upper_hex u = true ->
  upper_unit c = u :: rest ->
  rest = [] /\ (c = u \/ case_pair c u).
Proof.
  unfold is_upper_hex, is_digit, upper_unit, case_pair. intros R U.
  assert (U' : 48 <= u <= 57 \/ 65 <= u <= 70).
  { apply orb_true_iff in U as [U | U]; apply andb_true_iff in U as [A B];
      apply Z.leb_le in A, B; lia. }
  clear U.
  destruct ((0x61 <=? c) && (c <=? 0x7A)) eqn:T1.
  { intros E. injection E as E1 E2. apply andb_true_iff in T1 as [A B].
    apply Z.leb_le in A, B. split; [congruence|]. right. split; [left; lia | congruence]. }
  destruct (c =? 0xB5) eqn:T2; [intros E; injection E as E1 E2; lia|].
  destruct (c =? 0xDF) eqn:T3; [intros E; injection E as E1 E2; lia|].
  destruct ((0xE0 <=? c) && (c <=? 0xFE) && negb (c =? 0xF7)) eqn:T4.
  { intros E. injection E as E1 E2.
    apply andb_true_iff in T4 as [T4 _]. apply andb_true_iff in T4 as [A B].
    apply Z.leb_le in A, B. lia. }
  destruct (c =? 0xFF) eqn:T5; [intros E; injection E as E1 E2; lia|].
  intros E. injection E as E1 E2. split; [congruence | left; congruence].
Qed.

Lemma same_upper_case_variant (s h : jsstring) :
  is_latin1 s = true ->
  forallb is_lower_hex h = true ->
  toUpperCase h = toUpperCase s ->
  case_variant s h.
Proof.
  revert h. induction s as [|c s IH]; intros h L H E.
  - destruct h as [|x h]; [constructor|].
    cbn [forallb] in H. apply andb_true_iff in H as [Hx _].
    destruct (upper_unit_lower_hex x Hx) as [u [Eu _]].
    rewrite toUpperCase_cons, Eu in E. discriminate E.
  - cbn [is_latin1 forallb] in L. apply andb_true_iff in L as [Lc Ls].
    apply andb_true_iff in Lc as [A B]. apply Z.leb_le in A. apply Z.ltb_lt in B.
    destruct h as [|x h].
    + rewrite toUpperCase_cons in E. cbn in E.
      unfold upper_unit in E.
      repeat match type of E with
             | context [if ?b then _ else _] => destruct b
             end; discriminate E.
    + cbn [forallb] in H. apply andb_true_iff in H as [Hx Hh].
      destruct (upper_unit_lower_hex x Hx) as [u [Eu [Uu Xu]]].
      rewrite !toUpperCase_cons, Eu in E. cbn [app] in E. symmetry in E.
      destruct (upper_unit c) as [|u' rest] eqn:Ec.
      * unfold upper_unit in Ec.
        repeat match type of Ec with
               | context [if ?b then _ else _] => destruct b
               end; discriminate Ec.
      * cbn [app] in E. injection E as E1 E2. subst u'.
        destruct (upper_unit_hits_hex c u rest (conj A B) Uu Ec) as [-> Cu].
        cbn [app] in E2.
        constructor; [| apply IH; [exact Ls | exact Hh | symmetry; exact E2]].
        destruct Xu as [-> | Px]; destruct Cu as [-> | Pc].
        -- left; reflexivity.
        -- right; left; exact Pc.
        -- right; right; exact Px.
        -- left. destruct Px as [_ ->], Pc as [_ E]. lia.
Qed.

(** X4.  The verifier accepts nothing but the right signature: when it
    returns true for a received signature of one-byte characters (as a
    header value has), that string has sixty-four characters and differs
    from the lower-case hexadecimal HMAC of the message in letter case at
    most. *)
Theorem verifier_accepts_only_case_variants
    (secretKey sig ts : jsstring) (rid : jsvalue) (r rawBody : jsstring) :
  ToString rid = Some r ->
  is_latin1 sig = true ->
  outcome (verifyResponseSignature secretKey (JStr sig) (JStr ts) rid rawBody) = inr true ->
  case_variant sig (generateSignature secretKey (ts ++ r ++ rawBody)) /\
  length sig = 64%nat.
Proof.
  intros H L V.
  rewrite (verifyResponseSignature_eq _ _ _ _ _ _ H) in V.
  unfold outcome in V. cbn [snd] in V. apply inr_eq in V. apply jsstring_eqb_eq in V.
  destruct (generateSignature_lower_hex secretKey (ts ++ r ++ rawBody)) as [_ [Len Low]].
  assert (C := same_upper_case_variant _ _ L Low V).
  split; [exact C|].
  unfold case_variant in C. rewrite (Forall2_length C). exact Len.
Qed.

Lemma verifier_accepts_only_case_variants_witness :
  let mixed := js "2a2Ab8447CeCa2020c14178A61f176dB52Be0cAb470893713bA1bA7b094472C2" in
  case_variant mixed
    (generateSignature (js "Password123")
       (js "20251103170005" ++ js "7" ++ Fixture.doc7)) /\
  length mixed = 64%nat.
Proof.
  intros mixed.
  assert (V : outcome (verifyResponseSignature (js "Password123") (JStr mixed)
                         (JStr (js "20251103170005")) (JNum 7) Fixture.doc7) = inr true)
    by (vm_compute; reflexivity).
  exact (verifier_accepts_only_case_variants (js "Password123") mixed
           (js "20251103170005") (JNum 7) (js "7") Fixture.doc7 eq_refl eq_refl V).
Defined.

(** ** One timestamp per second *)

Module SecondFacts.
Import Date.

Lemma fields_from_second (t u : Z) :
  t / 1000 = u / 1000 ->
  Day t = Day u /\ HourFromTime t = HourFromTime u /\
  MinFromTime t = MinFromTime u /\ SecFromTime t = SecFromTime u.
Proof.
  unfold Day, msPerDay, HourFromTime, MinFromTime, SecFromTime. intros H.
  Z.div_mod_to_equations. lia.
Qed.

Lemma calendar_from_day (t u : Z) :
  Day t = Day u ->
  YearFromTime t = YearFromTime u /\ MonthFromTime t = MonthFromTime u /\
  DateFromTime t = DateFromTime u.
Proof.
  intros H.
  assert (Y : YearFromTime t = YearFromTime u) by (unfold YearFromTime; rewrite H; reflexivity).
  assert (L : InLeapYear t = InLeapYear u) by (unfold InLeapYear; rewrite Y; reflexivity).
  assert (W : DayWithinYear t = DayWithinYear u)
    by (unfold DayWithinYear; rewrite H, Y; reflexivity).
  assert (M : MonthFromTime t = MonthFromTime u)
    by (unfold MonthFromTime; rewrite W, L; reflexivity).
  split; [exact Y|]. split; [exact M|].
  unfold DateFromTime. rewrite M, W, L. reflexivity.
Qed.

Lemma second_from_fields (t u : Z) :
  Day t = Day u -> HourFromTime t = HourFromTime u ->
  MinFromTime t = MinFromTime u -> SecFromTime t = SecFromTime u ->
  t / 1000 = u / 1000.
Proof.
  unfold Day, msPerDay, HourFromTime, MinFromTime, SecFromTime. intros D H M S.
  Z.div_mod_to_equations. lia.
Qed.

Lemma day_from_calendar (t u : Z) :
  YearFromTime t = YearFromTime u -> MonthFromTime t = MonthFromTime u ->
  DateFromTime t = DateFromTime u -> Day t = Day u.
Proof.
  intros Y M D.
  assert (L : InLeapYear t = InLeapYear u) by (unfold InLeapYear; rewrite Y; reflexivity).
  assert (W : DayWithinYear t = DayWithinYear u).
  { unfold DateFromTime in D. rewrite M, L in D.
    pose proof (DateFacts.MonthFromTime_range u) as R.
    remember (MonthFromTime u) as m eqn:Em. clear Em M.
    assert (C : m = 0 \/ m = 1 \/ m = 2 \/ m = 3 \/ m = 4 \/ m = 5 \/ m = 6 \/
                m = 7 \/ m = 8 \/ m = 9 \/ m = 10 \/ m = 11) by lia.
    repeat (destruct C as [-> | C]; [cbv iota beta in D; lia|]).
    subst m. cbv iota beta in D. lia. }
  unfold DayWithinYear in W. rewrite Y in W. lia.
Qed.

End SecondFacts.

Lemma app_eq_by_length {A} (a a' b b' : list A) :
  length a = length a' -> a ++ b = a' ++ b' -> a = a' /\ b = b'.
Proof.
  revert a'. induction a as [|x a IH]; intros [|y a'] L E; try discriminate L.
  - split; [reflexivity | exact E].
  - cbn [app] in E. injection E as -> E. cbn [length] in L.
    destruct (IH a' ltac:(lia) E) as [-> ->]. split; reflexivity.
Qed.

Lemma cons_eq {A} (x y : A) (l l' : list A) : x :: l = y :: l' -> x = y /\ l = l'.
Proof. intros H. split; congruence. Qed.

Lemma fixed_width_2_injective (n m : Z) :
  0 <= n < 100 -> 0 <= m < 100 ->
  Spec.fixed_width 2 n = Spec.fixed_width 2 m -> n = m.
Proof.
  intros Hn Hm E.
  change (Spec.fixed_width 2 n) with [48 + (n / 10) mod 10; 48 + (n / 1) mod 10] in E.
  change (Spec.fixed_width 2 m) with [48 + (m / 10) mod 10; 48 + (m / 1) mod 10] in E.
  apply cons_eq in E as [E1 E]. apply cons_eq in E as [E2 _].
  Z.div_mod_to_equations. lia.
Qed.

Lemma fixed_width_4_injective (n m : Z) :
  0 <= n < 10000 -> 0 <= m < 10000 ->
  Spec.fixed_width 4 n = Spec.fixed_width 4 m -> n = m.
Proof.
  intros Hn Hm E.
  change (Spec.fixed_width 4 n)
    with [48 + (n / 1000) mod 10; 48 + (n / 100) mod 10;
          48 + (n / 10) mod 10; 48 + (n / 1) mod 10] in E.
  change (Spec.fixed_width 4 m)
    with [48 + (m / 1000) mod 10; 48 + (m / 100) mod 10;
          48 + (m / 10) mod 10; 48 + (m / 1) mod 10] in E.
  apply cons_eq in E as [E1 E]. apply cons_eq in E as [E2 E].
  apply cons_eq in E as [E3 E]. apply cons_eq in E as [E4 _].
  Z.div_mod_to_equations. lia.
Qed.

Lemma generateTimestamp_utc (now : Date.t) :
  1000 <= Date.getUTCFullYear now <= 9999 ->
  generateTimestamp now = Spec.utc_timestamp (Date.time now).
Proof.
  intros Hy.
  unfold generateTimestamp, Spec.utc_timestamp,
    Date.getUTCFullYear, Date.getUTCMonth, Date.getUTCDate,
    Date.getUTCHours, Date.getUTCMinutes, Date.getUTCSeconds in *.
  pose proof (DateFacts.MonthFromTime_range (Date.time now)).
  pose proof (DateFacts.DateFromTime_range (Date.time now)).
  pose proof (DateFacts.HourFromTime_range (Date.time now)).
  pose proof (DateFacts.MinFromTime_range (Date.time now)).
  pose proof (DateFacts.SecFromTime_range (Date.time now)).
  rewrite four_digits by assumption.
  rewrite !two_digits by lia. reflexivity.
Qed.

(** X5.  Within four-digit years the timestamp names the UTC second and
    nothing finer: two instants get the same timestamp exactly when they
    fall in the same second. *)
Theorem generateTimestamp_identifies_second (a b : Date.t) :
  1000 <= Date.getUTCFullYear a <= 9999 ->
  1000 <= Date.getUTCFullYear b <= 9999 ->
  (generateTimestamp a = generateTimestamp b <->
   Date.time a / 1000 = Date.time b / 1000).
Proof.
  intros Ya Yb. split.
  - rewrite (generateTimestamp_utc a Ya), (generateTimestamp_utc b Yb).
    unfold Spec.utc_timestamp, Date.getUTCFullYear in *. intros E.
    pose proof (DateFacts.MonthFromTime_range (Date.time a)).
    pose proof (DateFacts.DateFromTime_range (Date.time a)).
    pose proof (DateFacts.HourFromTime_range (Date.time a)).
    pose proof (DateFacts.MinFromTime_range (Date.time a)).
    pose proof (DateFacts.SecFromTime_range (Date.time a)).
    pose proof (DateFacts.MonthFromTime_range (Date.time b)).
    pose proof (DateFacts.DateFromTime_range (Date.time b)).
    pose proof (DateFacts.HourFromTime_range (Date.time b)).
    pose proof (DateFacts.MinFromTime_range (Date.time b)).
    pose proof (DateFacts.SecFromTime_range (Date.time b)).
    apply app_eq_by_length in E as [E1 E]; [| rewrite !fixed_width_length; reflexivity].
    apply app_eq_by_length in E as [E2 E]; [| rewrite !fixed_width_length; reflexivity].
    apply app_eq_by_length in E as [E3 E]; [| rewrite !fixed_width_length; reflexivity].
    apply app_eq_by_length in E as [E4 E]; [| rewrite !fixed_width_length; reflexivity].
    apply app_eq_by_length in E as [E5 E6]; [| rewrite !fixed_width_length; reflexivity].
    apply fixed_width_4_injective in E1; [| lia | lia].
    apply fixed_width_2_injective in E2; [| lia | lia].
    apply fixed_width_2_injective in E3; [| lia | lia].
    apply fixed_width_2_injective in E4; [| lia | lia].
    apply fixed_width_2_injective in E5; [| lia | lia].
    apply fixed_width_2_injective in E6; [| lia | lia].
    apply SecondFacts.second_from_fields; try assumption.
    apply SecondFacts.day_from_calendar; [assumption | lia | assumption].
  - intros E.
    destruct (SecondFacts.fields_from_second _ _ E) as [D [Hh [Hm Hs]]].
    destruct (SecondFacts.calendar_from_day _ _ D) as [Y [M Dt]].
    unfold generateTimestamp, Date.getUTCFullYear, Date.getUTCMonth, Date.getUTCDate,
      Date.getUTCHours, Date.getUTCMinutes, Date.getUTCSeconds.
    rewrite Y, M, Dt, Hh, Hm, Hs. reflexivity.
Qed.

Lemma generateTimestamp_identifies_second_witness :
  generateTimestamp (Date.mk 1762189200000 0) = generateTimestamp (Date.mk 1762189200999 0) /\
  generateTimestamp (Date.mk 1762189200000 0) <> generateTimestamp (Date.mk 1762189201000 0).
Proof.
  assert (Y0 : 1000 <= Date.getUTCFullYear (Date.mk 1762189200000 0) <= 9999)
    by (vm_compute; split; discriminate).
  assert (Y1 : 1000 <= Date.getUTCFullYear (Date.mk 1762189200999 0) <= 9999)
    by (vm_compute; split; discriminate).
  assert (Y2 : 1000 <= Date.getUTCFullYear (Date.mk 1762189201000 0) <= 9999)
    by (vm_compute; split; discriminate).
  split.
  - apply (proj2 (generateTimestamp_identifies_second _ _ Y0 Y1)). reflexivity.
  - intros E. apply (proj1 (generateTimestamp_identifies_second _ _ Y0 Y2)) in E.
    vm_compute in E. discriminate E.
Defined.


(** ** How the check of the response can end *)

Lemma ends_bind {A B} (P : exn -> Prop) (Q' : A -> Prop) (Q : B -> Prop)
    (m : M A) (k : A -> M B) :
  ends P Q' m -> (forall a, Q' a -> ends P Q (k a)) -> ends P Q (bind m k).
Proof.
  unfold ends, outcome, bind. destruct m as [tr [e|a]]; cbn [snd]; intros Hm Hk; [exact Hm|].
  specialize (Hk a Hm). destruct (k a) as [tr' r]. exact Hk.
Qed.

Lemma ends_weaken {A} (P P' : exn -> Prop) (Q Q' : A -> Prop) (m : M A) :
  ends P Q m -> (forall e, P e -> P' e) -> (forall a, Q a -> Q' a) -> ends P' Q' m.
Proof. unfold ends. destruct (outcome m); auto. Qed.

Lemma ends_get_prop (f : fault) (v : jsvalue) (key : jsstring) :
  ends is_TypeError (fun _ => True) (get_prop f v key).
Proof. destruct v; cbn; unfold is_TypeError; eauto. Qed.

Lemma ends_string_method (v : jsvalue) :
  ends is_TypeError (fun _ => True) (string_method v).
Proof. destruct v; cbn; unfold is_TypeError; eauto. Qed.

Lemma ends_template (v : jsvalue) : ends is_TypeError (fun _ => True) (template v).
Proof. unfold template. destruct (ToString v); cbn; unfold is_TypeError; eauto. Qed.

Lemma header_cases (name : string) (h : list (string * string)) :
  header name h = JUndefined \/ exists v, header name h = JStr (latin1_decode v).
Proof. unfold header. destruct (find _ h) as [[k v]|]; eauto. Qed.

(** X6.  The check of the response ends in one of three ways: a TypeError
    (caught by the route), the success answer, or the failure answer; and
    the failure answer is given only when both headers and the request id
    are truthy, with an expected signature of sixty-four upper-case
    hexadecimal digits.  There is no answer with success true and
    signatureVerified false, and none with a code other than 200. *)
Theorem check_response_answers (CONFIG : config) (response : axios_response)
    (rawBody : jsstring) (parsed : jsvalue) :
  match outcome (check_response CONFIG response rawBody parsed) with
  | inl e => is_TypeError e
  | inr answer =>
      answer = success_reply parsed \/
      exists rid expected,
        truthy (header "x-signature" (headers response)) = true /\
        truthy (header "x-timestamp" (headers response)) = true /\
        truthy rid = true /\
        length expected = 64%nat /\ forallb is_upper_hex expected = true /\
        answer = failure_reply (header "x-signature" (headers response)) expected
                   (header "x-timestamp" (headers response)) rid parsed
  end.
Proof.
  unfold check_response.
  pose proof (ends_get_prop CannotReadProperty parsed (js "TOKEN_REQID")) as G.
  unfold ends, outcome in G.
  destruct (get_prop CannotReadProperty parsed (js "TOKEN_REQID")) as [tr [e|rid]];
    cbn [bind outcome snd] in *; [exact G|]. clear G.
  destruct (truthy (header "x-signature" (headers response))) eqn:Ts;
    [| cbn [andb bind console_warn emit ret app outcome snd]; left; reflexivity].
  destruct (truthy (header "x-timestamp" (headers response))) eqn:Tt;
    [| cbn [andb bind console_warn emit ret app outcome snd]; left; reflexivity].
  destruct (truthy rid) eqn:Tr;
    [| cbn [andb bind console_warn emit ret app outcome snd]; left; reflexivity].
  cbn [andb].
  destruct (header_cases "x-signature" (headers response)) as [Es | [sv Es]];
    rewrite Es in *; [discriminate Ts|].
  destruct (header_cases "x-timestamp" (headers response)) as [Et | [tv Et]];
    rewrite Et in *; [discriminate Tt|].
  destruct (ToString rid) as [r|] eqn:HS.
  - rewrite (verifyResponseSignature_eq _ _ _ _ _ _ HS).
    destruct (expected_signature_upper_hex (SECRET_KEY CONFIG) (latin1_decode tv) r
                (trim rawBody)) as [E [L U]].
    destruct (jsstring_eqb _ _);
      cbn [bind negb console_log console_error emit ret app outcome snd].
    + left; reflexivity.
    + unfold template. rewrite HS. cbn [ToString bind ret app outcome snd].
      right. exists rid, (Spec.expected_signature (SECRET_KEY CONFIG) (latin1_decode tv) r
                           (trim rawBody)).
      rewrite E. repeat (split; [assumption || reflexivity|]). reflexivity.
  - unfold verifyResponseSignature, template. rewrite HS.
    cbn [ToString bind ret throw app outcome snd]. exists CannotConvertToPrimitive. reflexivity.
Qed.

Lemma ends_verifyResponseSignature (k : jsstring) (sig ts rid : jsvalue) (rawBody : jsstring) :
  ends is_TypeError (fun _ => True) (verifyResponseSignature k sig ts rid rawBody).
Proof.
  unfold verifyResponseSignature.
  eapply ends_bind; [apply ends_template | intros t _].
  eapply ends_bind; [apply ends_template | intros r _].
  eapply ends_bind; [apply ends_string_method | intros received _].
  exact I.
Qed.

(** The check throws nothing but TypeErrors and answers with 200. *)
Lemma ends_check_response (CONFIG : config) (response : axios_response)
    (rawBody : jsstring) (parsed : jsvalue) :
  ends is_TypeError (fun answer => code answer = 200)
       (check_response CONFIG response rawBody parsed).
Proof.
  unfold check_response.
  eapply ends_bind; [apply ends_get_prop | intros rid _].
  eapply ends_bind
    with (Q' := fun v => match v with Some answer => code answer = 200 | None => True end);
    [| intros [answer|] H; [exact H | reflexivity]].
  destruct (_ && _); [| exact I].
  eapply ends_bind; [apply ends_verifyResponseSignature | intros isValid _].
  destruct isValid; cbn [negb]; [exact I|].
  eapply ends_bind with (Q' := fun _ => True); [exact I | intros _ _].
  eapply ends_bind; [apply ends_template | intros t _].
  eapply ends_bind; [apply ends_template | intros r _].
  reflexivity.
Qed.

(** ** How the route can end *)

Section RouteAnswers.

Variable JSON_parse : jsstring -> jsstring + jsvalue.
Variable URL_valid : jsstring -> bool.
Variable fault_message : fault -> jsstring.


Lemma from_service_TypeError (w : world) (e : exn) : is_TypeError e -> from_service w e.
Proof. intros [f ->] st d H. discriminate H. Qed.

Lemma ends_tokenize (CONFIG : config) (w : world) (req : jsvalue) :
  ends (from_service w) (fun answer => code answer = 200 \/ code answer = 400)
       (tokenize JSON_parse URL_valid CONFIG w req).
Proof.
  unfold tokenize.
  eapply ends_bind.
  { eapply ends_weaken; [apply ends_get_prop | apply from_service_TypeError | exact (fun _ H => H)]. }
  intros cardPan _. destruct (negb (truthy cardPan)); [right; reflexivity|].
  eapply ends_bind with (Q' := fun _ => True); [exact I | intros _ _].
  eapply ends_bind.
  { eapply ends_weaken; [apply ends_string_method | apply from_service_TypeError
                        | exact (fun _ H => H)]. }
  intros pan _.
  do 6 (eapply ends_bind with (Q' := fun _ => True); [exact I | intros _ _]).
  eapply ends_bind with (Q' := fun _ => True).
  { unfold new_URL. destruct (URL_valid _); [exact I|].
    intros st d H. discriminate H. }
  intros url _.
  do 2 (eapply ends_bind with (Q' := fun _ => True); [exact I | intros _ _]).
  eapply ends_bind with (Q' := fun _ => True).
  { unfold axios_get. eapply ends_bind with (Q' := fun _ => True); [exact I | intros _ _].
    destruct (network w _) as [[m resp]|r] eqn:N; [|exact I].
    intros st d H. cbn in H. subst resp. eauto. }
  intros response _.
  eapply ends_bind with (Q' := fun _ => True).
  { unfold parse. destruct (JSON_parse _); [|exact I].
    intros st d H. discriminate H. }
  intros parsed _.
  do 5 (eapply ends_bind with (Q' := fun _ => True); [exact I | intros _ _]).
  eapply ends_weaken;
    [ apply ends_check_response | apply from_service_TypeError | intros answer H; left; exact H ].
Qed.

(** X7.  The route answers every request: whatever the body, the clock,
    the random bytes and the token service do, no exception leaves the
    handler, and the status of the answer is 200, 400, 500 or a status the
    token service itself returned with an error. *)
Theorem generate_token_always_answers (CONFIG : config) (w : world) (req : jsvalue) :
  exists answer,
    outcome (generate_token JSON_parse URL_valid fault_message CONFIG w req) = inr answer /\
    (code answer = 200 \/ code answer = 400 \/ code answer = 500 \/
     exists o m d, network w o = inl (m, Some (code answer, d))).
Proof.
  unfold generate_token.
  pose proof (ends_tokenize CONFIG w req) as T. unfold ends, outcome in T.
  destruct (tokenize JSON_parse URL_valid CONFIG w req) as [tr [e|answer]];
    cbn [snd try_catch] in *.
  - unfold on_error, from_service in *.
    destruct (error_response e) as [[st d]|].
    + destruct (T st d eq_refl) as [o [m N]].
      eexists. split; [reflexivity|]. cbn [code]. right; right; right. eauto.
    + eexists. split; [reflexivity|]. cbn [code]. tauto.
  - exists answer. split; [reflexivity | tauto].
Qed.

Lemma silent_try_catch {A} (m : M A) (h : exn -> M A) :
  silent m -> (forall e, silent (h e)) -> silent (try_catch m h).
Proof.
  unfold silent, trace, try_catch. destruct m as [tr [e|a]]; cbn [fst]; intros Hm Hh;
    [| exact Hm].
  specialize (Hh e). destruct (h e) as [tr' r]. cbn [fst] in *.
  rewrite sent_app, Hm, Hh. reflexivity.
Qed.

Lemma silent_without_card_number (CONFIG : config) (w : world) (req : jsvalue) :
  card_number req = None -> silent (tokenize JSON_parse URL_valid CONFIG w req).
Proof.
  unfold card_number, tokenize. intros H.
  destruct req as [| |b|n|s|l|fields]; try reflexivity.
  cbn [get_prop bind ret app].
  destruct (lookup (js "cardPan") fields) as [[| |[]|n|[|c s]|l|f]|]; try discriminate H;
    try reflexivity.
  destruct (negb (truthy (JNum n))); reflexivity.
Qed.

Lemma silent_without_address (CONFIG : config) (w : world) (req : jsvalue) :
  URL_valid (TOKEN_SERVICE_URL CONFIG) = false ->
  silent (tokenize JSON_parse URL_valid CONFIG w req).
Proof.
  intros H. unfold tokenize.
  apply silent_bind; [apply silent_get_prop | intros cardPan].
  destruct (negb (truthy cardPan)); [reflexivity|].
  apply silent_bind; [reflexivity | intros _].
  apply silent_bind; [apply silent_string_method | intros pan].
  do 6 (apply silent_bind; [reflexivity | intros _]).
  unfold new_URL. rewrite H. reflexivity.
Qed.

(** X8.  The route calls the token service exactly once when the body
    carries a non-empty string cardPan and the configured address is a
    valid URL, and never otherwise; it never calls twice. *)
Theorem generate_token_calls (CONFIG : config) (w : world) (req : jsvalue) :
  sent (trace (generate_token JSON_parse URL_valid fault_message CONFIG w req)) =
    match card_number req with
    | Some pan =>
        if URL_valid (TOKEN_SERVICE_URL CONFIG) then [the_request CONFIG w pan] else []
    | None => []
    end.
Proof.
  destruct (card_number req) as [pan|] eqn:C.
  - destruct (URL_valid (TOKEN_SERVICE_URL CONFIG)) eqn:U.
    + unfold card_number in C.
      destruct req as [| |b|n|s|l|fields]; try discriminate C.
      destruct (lookup (js "cardPan") fields) as [[| |b|n|[|c s]|l|f]|] eqn:L;
        try discriminate C.
      injection C as <-.
      destruct (generate_token_trace JSON_parse URL_valid fault_message CONFIG w fields
                  (c :: s) L ltac:(discriminate) U) as [rest [r [T S]]].
      rewrite T. unfold trace. cbn [fst].
      rewrite !sent_app, sent_request_log, S. reflexivity.
    + apply silent_try_catch; [apply silent_without_address, U|].
      intros e. apply silent_on_error.
  - apply silent_try_catch; [apply silent_without_card_number, C|].
    intros e. apply silent_on_error.
Qed.

(** X9.  A body whose cardPan is absent or falsy (empty string, 0, false,
    null) is answered 400 with the missing-field error; nothing is logged
    and the token service is not called. *)
Theorem missing_card_number_refused (CONFIG : config) (w : world) (req cardPan : jsvalue) :
  get_prop CannotDestructure req (js "cardPan") = ret cardPan ->
  falsy cardPan ->
  generate_token JSON_parse URL_valid fault_message CONFIG w req =
    ([], inr (mkReply 400
                [ (js "error", RVal (JStr (js "Missing required field: cardPan"))) ])).
Proof.
  intros G F. apply truthy_falsy in F.
  unfold generate_token, tokenize. rewrite G. cbn [bind ret]. rewrite F. reflexivity.
Qed.

(** X10.  When the call to the token service is rejected, the route
    passes on the upstream status with the upstream body as details; when
    there was no upstream answer it answers 500 with the error's
    message. *)
Theorem upstream_failure_reported (CONFIG : config) (w : world)
    (fields : list (jsstring * jsvalue)) (pan m : jsstring) (r : option (Z * string)) :
  lookup (js "cardPan") fields = Some (JStr pan) ->
  pan <> [] ->
  URL_valid (TOKEN_SERVICE_URL CONFIG) = true ->
  network w (the_request CONFIG w pan) = inl (m, r) ->
  outcome (generate_token JSON_parse URL_valid fault_message CONFIG w (JObj fields)) =
    inr (match r with
         | Some (st, d) =>
             mkReply st [ (js "error", RVal (JStr (js "Token service error")));
                          (js "details", RBuffer d) ]
         | None =>
             mkReply 500 [ (js "error", RVal (JStr (js "Internal server error")));
                           (js "message", RVal (JStr m)) ]
         end).
Proof.
  intros Hpan Hne Hurl Hnet. unfold generate_token.
  rewrite (tokenize_until_call JSON_parse URL_valid _ _ _ _ Hpan Hne Hurl), Hnet.
  cbn [bind try_catch]. unfold on_error. cbn [error_response error_message].
  destruct r as [[st d]|]; reflexivity.
Qed.

(** X11.  When the token service answers with a body that is not JSON, or
    with the JSON value null, the route answers 500 with the message of the
    SyntaxError or TypeError. *)
Theorem unusable_answer_reported (CONFIG : config) (w : world)
    (fields : list (jsstring * jsvalue)) (pan : jsstring) (response : axios_response) :
  lookup (js "cardPan") fields = Some (JStr pan) ->
  pan <> [] ->
  URL_valid (TOKEN_SERVICE_URL CONFIG) = true ->
  network w (the_request CONFIG w pan) = inr response ->
  (exists m, JSON_parse (latin1_decode (data response)) = inl m) \/
  JSON_parse (latin1_decode (data response)) = inr JNull ->
  outcome (generate_token JSON_parse URL_valid fault_message CONFIG w (JObj fields)) =
    inr (mkReply 500
           [ (js "error", RVal (JStr (js "Internal server error")));
             (js "message",
              RVal (JStr (match JSON_parse (latin1_decode (data response)) with
                          | inl m => m
                          | inr _ => fault_message CannotReadProperty
                          end))) ]).
Proof.
  intros Hpan Hne Hurl Hnet H. unfold generate_token.
  rewrite (tokenize_until_call JSON_parse URL_valid _ _ _ _ Hpan Hne Hurl), Hnet.
  cbn [bind]. unfold parse.
  destruct H as [[m H] | H]; rewrite H.
  - reflexivity.
  - reflexivity.
Qed.

End RouteAnswers.

Lemma missing_card_number_refused_witness :
  generate_token Fixture.JSON_parse Fixture.URL_valid Fixture.fault_message default_config
    (Fixture.answering (Fixture.unsigned_response Fixture.doc7))
    (JObj [ (js "cardPan", JStr []) ]) =
  ([], inr (mkReply 400
              [ (js "error", RVal (JStr (js "Missing required field: cardPan"))) ])).
Proof.
  apply (missing_card_number_refused Fixture.JSON_parse Fixture.URL_valid
           Fixture.fault_message default_config _ _ (JStr []));
    [reflexivity | constructor].
Defined.

Lemma upstream_failure_reported_witness :
  let w := mkWorld Fixture.noon Fixture.entropy
             (fun _ => inl (js "Request failed with status code 503",
                            Some (503, "busy"%string))) in
  outcome (Fixture.route w) =
    inr (mkReply 503 [ (js "error", RVal (JStr (js "Token service error")));
                       (js "details", RBuffer "busy") ]).
Proof.
  intros w.
  refine (upstream_failure_reported Fixture.JSON_parse Fixture.URL_valid
            Fixture.fault_message default_config w Fixture.fields (js "409159111111111")
            (js "Request failed with status code 503") (Some (503, "busy"%string))
            eq_refl _ eq_refl eq_refl).
  discriminate.
Defined.

Lemma unusable_answer_reported_witness :
  let response := Fixture.unsigned_response (js "<html>") in
  outcome (Fixture.route (Fixture.answering response)) =
    inr (mkReply 500
           [ (js "error", RVal (JStr (js "Internal server error")));
             (js "message",
              RVal (JStr (match Fixture.JSON_parse (latin1_decode (data response)) with
                          | inl m => m
                          | inr _ => Fixture.fault_message CannotReadProperty
                          end))) ]).
Proof.
  intros response.
  refine (unusable_answer_reported Fixture.JSON_parse Fixture.URL_valid
            Fixture.fault_message default_config (Fixture.answering response)
            Fixture.fields (js "409159111111111") response
            eq_refl _ eq_refl eq_refl _).
  - discriminate.
  - left. exists (js "Unexpected token"). vm_compute. reflexivity.
Defined.


(** ** A correctly signed response *)

(** X12.  A response whose signature header is the HMAC of
    serverTimestamp ++ requestId ++ trimmed body under the configured key,
    in any letter case, is accepted: the route logs the verification and
    answers success with the parsed payload as token. *)
Theorem signed_response_accepted
    (JSON_parse : jsstring -> jsstring + jsvalue) (URL_valid : jsstring -> bool)
    (fault_message : fault -> jsstring)
    (CONFIG : config) (w : world) (fields : list (jsstring * jsvalue)) (pan : jsstring)
    (response : axios_response) (parsed rid : jsvalue) (sig ts r : jsstring) :
  lookup (js "cardPan") fields = Some (JStr pan) ->
  pan <> [] ->
  URL_valid (TOKEN_SERVICE_URL CONFIG) = true ->
  network w (the_request CONFIG w pan) = inr response ->
  JSON_parse (latin1_decode (data response)) = inr parsed ->
  get_prop CannotReadProperty parsed (js "TOKEN_REQID") = ret rid ->
  header "x-signature" (headers response) = JStr sig ->
  header "x-timestamp" (headers response) = JStr ts ->
  ts <> [] -> truthy rid = true ->
  ToString rid = Some r ->
  case_variant sig (generateSignature (SECRET_KEY CONFIG)
                      (ts ++ r ++ trim (latin1_decode (data response)))) ->
  outcome (generate_token JSON_parse URL_valid fault_message CONFIG w (JObj fields)) =
    inr (success_reply parsed) /\
  In verified_log
     (trace (generate_token JSON_parse URL_valid fault_message CONFIG w (JObj fields))).
Proof.
  intros Hpan Hne Hurl Hnet Hparse Hrid Hsig Hts Ht Hr HS V.
  assert (Hs : sig <> []).
  { intros ->. apply Forall2_length in V.
    destruct (generateSignature_lower_hex (SECRET_KEY CONFIG)
                (ts ++ r ++ trim (latin1_decode (data response)))) as [_ [L _]].
    rewrite L in V. discriminate V. }
  assert (Q : jsstring_eqb
                (toUpperCase (generateSignature (SECRET_KEY CONFIG)
                                (ts ++ r ++ trim (latin1_decode (data response)))))
                (toUpperCase sig) = true).
  { rewrite (toUpperCase_case_variant _ _ V). apply jsstring_eqb_refl. }
  rewrite (generate_token_checked JSON_parse URL_valid fault_message CONFIG w fields pan
             response parsed rid sig ts r true
             Hpan Hne Hurl Hnet Hparse Hrid Hsig Hts Hs Ht Hr HS Q).
  split; [reflexivity|]. unfold trace. cbn [fst].
  do 4 (apply in_or_app; right). left. reflexivity.
Qed.

Lemma signed_response_accepted_witness :
  let payload := Fixture.doc7 ++ [10] in
  let response := Fixture.signed_response (js "7") Fixture.doc7 payload in
  outcome (Fixture.route (Fixture.answering response)) = inr (success_reply Fixture.parsed7).
Proof.
  intros payload response.
  assert (P : Fixture.JSON_parse (latin1_decode (data response)) = inr Fixture.parsed7)
    by (vm_compute; reflexivity).
  assert (V : case_variant
                (latin1_decode (Fixture.wire (Fixture.service_signature (js "7") Fixture.doc7)))
                (generateSignature (SECRET_KEY default_config)
                   (latin1_decode Fixture.stamp ++ js "7" ++
                    trim (latin1_decode (data response)))))
    by (apply case_variantb_sound; vm_compute; reflexivity).
  refine (proj1 (signed_response_accepted Fixture.JSON_parse Fixture.URL_valid
            Fixture.fault_message default_config (Fixture.answering response)
            Fixture.fields (js "409159111111111") response Fixture.parsed7 (JNum 7)
            _ _ (js "7")
            eq_refl _ eq_refl eq_refl P eq_refl eq_refl eq_refl _ eq_refl eq_refl V));
    discriminate.
Defined.


(** ** White space around the body *)

Lemma trimStart_app (a b : jsstring) :
  trimStart (a ++ b) =
    match trimStart a with
    | [] => trimStart b
    | _ => trimStart a ++ b
    end.
Proof.
  induction a as [|x a IH]; [reflexivity|].
  cbn [app trimStart]. destruct (is_whitespace x); [exact IH | reflexivity].
Qed.

Lemma trimStart_all_whitespace (w : jsstring) :
  forallb is_whitespace w = true -> trimStart w = [].
Proof.
  induction w as [|x w IH]; [reflexivity|].
  cbn [forallb trimStart]. intros H. apply andb_true_iff in H as [Hx Hw].
  rewrite Hx. apply IH, Hw.
Qed.

Lemma forallb_rev {A} (f : A -> bool) (l : list A) : forallb f (rev l) = forallb f l.
Proof.
  induction l as [|x l IH]; [reflexivity|].
  cbn [rev forallb]. rewrite forallb_app, IH. cbn [forallb].
  rewrite andb_true_r. apply andb_comm.
Qed.

Lemma trim_padding (w1 w2 s : jsstring) :
  forallb is_whitespace w1 = true ->
  forallb is_whitespace w2 = true ->
  trim (w1 ++ s ++ w2) = trim s.
Proof.
  intros H1 H2. unfold trim, trimEnd.
  rewrite !rev_app_distr, <- app_assoc.
  rewrite (trimStart_app (rev w2)), (trimStart_all_whitespace (rev w2))
    by (rewrite forallb_rev; exact H2).
  rewrite (trimStart_app (rev s)).
  destruct (trimStart (rev s)) as [|x t] eqn:E.
  - rewrite (trimStart_all_whitespace (rev w1)) by (rewrite forallb_rev; exact H1).
    reflexivity.
  - rewrite rev_app_distr, rev_involutive.
    rewrite trimStart_app, (trimStart_all_whitespace w1 H1). reflexivity.
Qed.

Lemma check_response_body (CONFIG : config) (response : axios_response)
    (a b : jsstring) (parsed : jsvalue) :
  trim a = trim b ->
  check_response CONFIG response a parsed = check_response CONFIG response b parsed.
Proof.
  intros H. unfold check_response. rewrite H. reflexivity.
Qed.

(** X13.  White space before and after the body does not matter to the
    check: with the same headers and parsed payload it logs and answers the
    same whether or not the body is padded. *)
Theorem check_response_ignores_padding (CONFIG : config) (response : axios_response)
    (w1 w2 rawBody : jsstring) (parsed : jsvalue) :
  forallb is_whitespace w1 = true ->
  forallb is_whitespace w2 = true ->
  check_response CONFIG response (w1 ++ rawBody ++ w2) parsed =
  check_response CONFIG response rawBody parsed.
Proof.
  intros H1 H2. apply check_response_body, trim_padding; assumption.
Qed.

Lemma check_response_ignores_padding_witness :
  let response := Fixture.signed_response (js "7") Fixture.doc7 Fixture.doc7 in
  check_response default_config response ([32; 9] ++ Fixture.doc7 ++ [13; 10]) Fixture.parsed7 =
  check_response default_config response Fixture.doc7 Fixture.parsed7.
Proof.
  intros response.
  exact (check_response_ignores_padding default_config response [32; 9] [13; 10]
           Fixture.doc7 Fixture.parsed7 eq_refl eq_refl).
Defined.


(** ** The card number in the console *)

Lemma substring_suffix (s : jsstring) (n : nat) :
  substring_from s (Z.of_nat (length s) - Z.of_nat n) = skipn (length s - n) s.
Proof.
  unfold substring_from, substring, clamp.
  set (len := Z.of_nat (length s)).
  assert (L : 0 <= len) by (unfold len; lia).
  replace (Z.max 0 (Z.min len len)) with len by lia.
  replace (Z.min (Z.max 0 (Z.min (len - Z.of_nat n) len)) len)
    with (Z.max 0 (len - Z.of_nat n)) by lia.
  replace (Z.to_nat (Z.max 0 (len - Z.of_nat n))) with (length s - n)%nat
    by (unfold len; lia).
  apply firstn_all2. rewrite length_skipn. unfold len. lia.
Qed.

(** X14.  For every call the route makes, the console shows the card
    number twice: masked, as its first six characters, six asterisks and
    its last four characters (so a number of at most four characters is
    printed whole on both sides of the asterisks), and then in full, as
    the CARD_PAN parameter of the logged request URL. *)
Theorem card_number_logged
    (JSON_parse : jsstring -> jsstring + jsvalue) (URL_valid : jsstring -> bool)
    (fault_message : fault -> jsstring)
    (CONFIG : config) (w : world) (fields : list (jsstring * jsvalue)) (pan : jsstring) :
  lookup (js "cardPan") fields = Some (JStr pan) ->
  pan <> [] ->
  URL_valid (TOKEN_SERVICE_URL CONFIG) = true ->
  let log := trace (generate_token JSON_parse URL_valid fault_message CONFIG w (JObj fields)) in
  let masked := firstn 6 pan ++ js "******" ++ skipn (length pan - 4) pan in
  In (Console LOG [str "Card PAN:"; AVal (JStr masked)]) log /\
  ((length pan <= 4)%nat -> masked = pan ++ js "******" ++ pan) /\
  (exists u, In (Console LOG [str "Request URL:"; AUrl u]) log /\
             In (js "CARD_PAN", pan) (searchParams u)).
Proof.
  intros Hpan Hne Hurl log masked. subst log masked.
  destruct (generate_token_trace JSON_parse URL_valid fault_message CONFIG w fields pan
              Hpan Hne Hurl) as [rest [r [T S]]].
  rewrite T. unfold trace. cbn [fst].
  split; [| split].
  - apply in_or_app. left. unfold request_log.
    rewrite (substring_prefix pan 6) by lia.
    change (Z.of_nat (length pan) - 4) with (Z.of_nat (length pan) - Z.of_nat 4).
    rewrite substring_suffix. change (Z.to_nat 6) with 6%nat.
    right. left. reflexivity.
  - intros L. rewrite firstn_all2 by lia.
    replace (length pan - 4)%nat with 0%nat by lia. reflexivity.
  - exists (out_url (the_request CONFIG w pan)). split.
    + apply in_or_app. left. unfold request_log. do 7 right. left. reflexivity.
    + left. reflexivity.
Qed.

Lemma card_number_logged_witness :
  let w := Fixture.answering (Fixture.unsigned_response Fixture.doc7) in
  In (Console LOG [str "Card PAN:";
                   AVal (JStr (firstn 6 (js "409159111111111") ++ js "******" ++
                               skipn (15 - 4) (js "409159111111111")))])
     (trace (Fixture.route w)).
Proof.
  intros w.
  refine (proj1 (card_number_logged Fixture.JSON_parse Fixture.URL_valid
                   Fixture.fault_message default_config w Fixture.fields
                   (js "409159111111111") eq_refl _ eq_refl)).
  discriminate.
Defined.


(** ** The banner *)

(** X15.  The key line of the banner shows as many characters as the key
    has, the first three as they are and an asterisk for each of the
    others; a key of at most three characters is printed whole. *)
Theorem banner_key_line (CONFIG : config) :
  let key := SECRET_KEY CONFIG in
  let shown := firstn 3 key ++ repeat 42 (length key - 3) in
  In (Console LOG [AVal (JStr (js "  Secret Key:    " ++ shown))]) (trace (listening CONFIG)) /\
  length shown = length key /\
  ((length key <= 3)%nat -> shown = key).
Proof.
  intros key shown. subst shown. split; [| split].
  - unfold listening, trace. cbn [bind console_log emit fst app].
    do 10 right. left. fold key. rewrite (substring_prefix key 3) by lia.
    change (Z.to_nat 3) with 3%nat. unfold repeat_unit.
    replace (Z.to_nat (Z.max 0 (Z.of_nat (length key) - 3))) with (length key - 3)%nat by lia.
    reflexivity.
  - rewrite length_app, length_firstn, repeat_length. lia.
  - intros L. rewrite firstn_all2 by lia.
    replace (length key - 3)%nat with 0%nat by lia. apply app_nil_r.
Qed.

Lemma banner_key_line_witness :
  let CONFIG := with_secret default_config (js "ab") in
  firstn 3 (SECRET_KEY CONFIG) ++ repeat 42 (length (SECRET_KEY CONFIG) - 3) = js "ab".
Proof.
  intros CONFIG.
  apply (proj2 (proj2 (banner_key_line CONFIG))). vm_compute. repeat constructor.
Defined.


(** ** Configuration from the environment *)

Example load_config_empty_environment : load_config (fun _ => None) = default_config.
Proof. reflexivity. Qed.


(** ** Faults before and after the call *)

(** X17.  A card number that is truthy but not a string (a JSON number,
    say) is not refused as missing: the route logs the first line of the
    request, fails on [cardPan.substring], answers 500 with the TypeError's
    message and makes no call.  With a string card number and a configured
    address that is not a valid URL it likewise answers 500 and makes no
    call. *)
Theorem request_faults_reported
    (JSON_parse : jsstring -> jsstring + jsvalue) (URL_valid : jsstring -> bool)
    (fault_message : fault -> jsstring) (CONFIG : config) (w : world) :
  (forall req cardPan,
     get_prop CannotDestructure req (js "cardPan") = ret cardPan ->
     truthy cardPan = true ->
     (forall s, cardPan <> JStr s) ->
     generate_token JSON_parse URL_valid fault_message CONFIG w req =
       ([ Console LOG [AVal (JStr (10 :: js "--- Token Request Generation ---"))];
          Console ERROR [AVal (JStr (10 :: js "--- Error ---"))];
          Console ERROR [str "Error Message:"; AVal (JStr (fault_message NotAFunction))];
          Console ERROR [str "Error Details:"; AErr (TypeError NotAFunction)] ],
        inr (mkReply 500 [ (js "error", RVal (JStr (js "Internal server error")));
                           (js "message", RVal (JStr (fault_message NotAFunction))) ]))) /\
  (forall fields pan,
     lookup (js "cardPan") fields = Some (JStr pan) ->
     pan <> [] ->
     URL_valid (TOKEN_SERVICE_URL CONFIG) = false ->
     outcome (generate_token JSON_parse URL_valid fault_message CONFIG w (JObj fields)) =
       inr (mkReply 500 [ (js "error", RVal (JStr (js "Internal server error")));
                          (js "message", RVal (JStr (fault_message InvalidURL))) ])).
Proof.
  split.
  - intros req cardPan G T N. unfold generate_token, tokenize.
    rewrite G. cbn [bind ret]. rewrite T. cbn [negb].
    destruct cardPan as [| |b|n|s|l|f]; try discriminate T;
      try (exfalso; apply (N s); reflexivity); reflexivity.
  - intros fields pan L Hne U. unfold generate_token, tokenize.
    cbn [get_prop bind ret]. rewrite L.
    destruct pan as [|c pan']; [congruence|].
    cbn [truthy negb app]. unfold new_URL. rewrite U. reflexivity.
Qed.

Lemma request_faults_reported_witness :
  let w := Fixture.answering (Fixture.unsigned_response Fixture.doc7) in
  outcome (generate_token Fixture.JSON_parse Fixture.URL_valid Fixture.fault_message
             default_config w (JObj [ (js "cardPan", JNum 409159111111111) ])) =
    inr (mkReply 500 [ (js "error", RVal (JStr (js "Internal server error")));
                       (js "message", RVal (JStr (js "is not a function"))) ]) /\
  outcome (generate_token Fixture.JSON_parse Fixture.URL_valid Fixture.fault_message
             (mkConfig (js "Password123") (js "9201") (js "token_service.cfm")
                       (js "2.22") (js "3000"))
             w Fixture.request) =
    inr (mkReply 500 [ (js "error", RVal (JStr (js "Internal server error")));
                       (js "message", RVal (JStr (js "Invalid URL"))) ]).
Proof.
  intros w. split.
  - refine (f_equal snd
              (proj1 (request_faults_reported Fixture.JSON_parse Fixture.URL_valid
                        Fixture.fault_message default_config w)
                 (JObj [ (js "cardPan", JNum 409159111111111) ])
                 (JNum 409159111111111) eq_refl eq_refl _)).
    intros s. discriminate.
  - refine (proj2 (request_faults_reported Fixture.JSON_parse Fixture.URL_valid
                     Fixture.fault_message
                     (mkConfig (js "Password123") (js "9201") (js "token_service.cfm")
                               (js "2.22") (js "3000")) w)
              Fixture.fields (js "409159111111111") eq_refl _ eq_refl).
    discriminate.
Defined.

(** X18.  When both headers are present and the request id is an object
    with a field of its own named toString (truthy, but with no string
    form), the verifier throws before it logs anything, and the route
    answers 500 with the TypeError's message instead of a verification
    result. *)
Theorem unprintable_request_id_reported
    (JSON_parse : jsstring -> jsstring + jsvalue) (URL_valid : jsstring -> bool)
    (fault_message : fault -> jsstring)
    (CONFIG : config) (w : world) (fields : list (jsstring * jsvalue)) (pan : jsstring)
    (response : axios_response) (parsed rid : jsvalue) :
  lookup (js "cardPan") fields = Some (JStr pan) ->
  pan <> [] ->
  URL_valid (TOKEN_SERVICE_URL CONFIG) = true ->
  network w (the_request CONFIG w pan) = inr response ->
  JSON_parse (latin1_decode (data response)) = inr parsed ->
  get_prop CannotReadProperty parsed (js "TOKEN_REQID") = ret rid ->
  truthy (header "x-signature" (headers response)) = true ->
  truthy (header "x-timestamp" (headers response)) = true ->
  truthy rid = true ->
  ToString rid = None ->
  trace (verifyResponseSignature (SECRET_KEY CONFIG)
           (header "x-signature" (headers response))
           (header "x-timestamp" (headers response)) rid
           (trim (latin1_decode (data response)))) = [] /\
  outcome (generate_token JSON_parse URL_valid fault_message CONFIG w (JObj fields)) =
    inr (mkReply 500
           [ (js "error", RVal (JStr (js "Internal server error")));
             (js "message", RVal (JStr (fault_message CannotConvertToPrimitive))) ]).
Proof.
  intros Hpan Hne Hurl Hnet Hparse Hrid Ts Tt Tr HS.
  assert (V : verifyResponseSignature (SECRET_KEY CONFIG)
                (header "x-signature" (headers response))
                (header "x-timestamp" (headers response)) rid
                (trim (latin1_decode (data response))) =
              ([], inl (TypeError CannotConvertToPrimitive))).
  { unfold verifyResponseSignature, template. rewrite HS.
    destruct (ToString (header "x-timestamp" (headers response))); reflexivity. }
  split; [rewrite V; reflexivity|].
  unfold generate_token.
  rewrite (tokenize_until_call JSON_parse URL_valid _ _ _ _ Hpan Hne Hurl), Hnet.
  cbn [bind]. unfold parse. rewrite Hparse. cbn [bind ret].
  unfold check_response. rewrite Hrid. cbn [bind ret]. rewrite Ts, Tt, Tr. cbn [andb].
  rewrite V. reflexivity.
Qed.

Lemma unprintable_request_id_reported_witness :
  let odd := JObj [ (js "TOKEN_REQID", JObj [ (js "toString", JNum 1) ]) ] in
  let parse := fun _ : jsstring => @inr jsstring jsvalue odd in
  let w := Fixture.answering (Fixture.forged_response Fixture.doc7) in
  outcome (generate_token parse Fixture.URL_valid Fixture.fault_message
             default_config w Fixture.request) =
    inr (mkReply 500
           [ (js "error", RVal (JStr (js "Internal server error")));
             (js "message", RVal (JStr (js "Cannot convert object to primitive value"))) ]).
Proof.
  intros odd parse w.
  refine (proj2 (unprintable_request_id_reported parse Fixture.URL_valid
            Fixture.fault_message default_config w Fixture.fields (js "409159111111111")
            (Fixture.forged_response Fixture.doc7) odd
            (JObj [ (js "toString", JNum 1) ])
            eq_refl _ eq_refl eq_refl eq_refl eq_refl _ _ eq_refl eq_refl)).
  - discriminate.
  - vm_compute. reflexivity.
  - vm_compute. reflexivity.
Defined.
